(** * plot_utils: rendering an origami crease pattern

    A shallow embedding of [plot_utils.py] and the properties of its four
    functions: [set_axes_equal], [plot_reference_configuration],
    [plot_custom_configuration] and [plot_crease_pattern].

    Conventions.
    - Python floats are read as exact rationals ([Qc], rationals in lowest
      terms, so that equal numbers are equal terms).  Rounding, infinities
      and NaN are outside the model; a quotient by zero, which numpy turns
      into an infinity, is 0 in [Qc], and matplotlib never reports an empty
      interval as the limits of an axis.
    - Counts and indices are [nat].
    - A matplotlib axes object is a record that the functions update in
      place: a computation of type [py S A] takes the axes, may raise, and
      hands back the axes as the call left them, also when it raised.
    - The limits in the record of a 2D axes are the limits that [get_xlim]
      and [get_ylim] report.  An axis that autoscales follows the data of
      the artists on the axes; how matplotlib computes the limits from the
      data (margins and the like) is the axes' own business and is carried
      in the record as a function.
    - Arguments have the types the code expects and [alpha] lies in
      [[0, 1]], outside which matplotlib from 3.3 on refuses [set_alpha].
      The 3D axes is the one of matplotlib up to 3.4, whose [collections]
      is a list that can be assigned.
    - numpy arrays are lists of rows, rows are tuples. *)

From Stdlib Require Import QArith Qcanon Qcabs Qround Lqa.
From stdpp Require Import base numbers list strings pretty.

Close Scope Qc_scope.
Close Scope Q_scope.

(** ** Exceptions and the two monads *)

(** The exceptions the four functions can end in.  [UserError cls msg] is an
    instance of a class [cls] that the module can name; [NameError x] is what
    Python raises when the name [x] is bound nowhere; [ValueError] is what
    [plt.get_cmap] raises for a name that is not a registered palette. *)
Inductive exception : Type :=
  | UserError (cls msg : string)
  | NameError (name : string)
  | IndexError
  | ValueError.

Inductive outcome (A : Type) : Type :=
  | Ok (a : A)
  | Raise (e : exception).
Arguments Ok {A} a.
Arguments Raise {A} e.

Global Instance outcome_ret : MRet outcome := @Ok.
Global Instance outcome_bind : MBind outcome := λ A B k m,
  match m with
  | Ok a => k a
  | Raise e => Raise e
  end.

(** Code that reads and updates an object of type [S]. *)
Definition py (S A : Type) : Type := S → outcome A * S.

Global Instance py_ret {S} : MRet (py S) := λ A a s, (Ok a, s).
Global Instance py_bind {S} : MBind (py S) := λ A B k m s,
  match m s with
  | (Ok a, s') => k a s'
  | (Raise e, s') => (Raise e, s')
  end.

Definition lift {S A} (o : outcome A) : py S A := λ s, (o, s).
Definition gets {S A} (f : S → A) : py S A := λ s, (Ok (f s), s).
Definition modify {S} (f : S → S) : py S unit := λ s, (Ok tt, f s).
Definition raise {S A} (e : exception) : py S A := λ s, (Raise e, s).

(** ** Python and numpy primitives *)

(** [l[i]] for a non-negative index. *)
Definition index {A} (l : list A) (i : nat) : outcome A :=
  match l !! i with
  | Some x => Ok x
  | None => Raise IndexError
  end.

(** [l[i] = v]: an index past the end raises, the list never grows. *)
Definition setitem {A} (l : list A) (i : nat) (v : A) : outcome (list A) :=
  if bool_decide (i < length l) then Ok (<[i:=v]> l) else Raise IndexError.

Definition range (n : nat) : list nat := seq 0 n.

Definition enumerate {A} (l : list A) : list (nat * A) :=
  zip (seq 0 (length l)) l.

(** [for x in xs: acc = body(x, acc)], stopping at the first exception. *)
Fixpoint for_each {A B} (xs : list A) (body : A → B → outcome B) (acc : B)
  : outcome B :=
  match xs with
  | [] => Ok acc
  | x :: xs' => acc' ← body x acc; for_each xs' body acc'
  end.

(** The same loop when the body draws on an axes object. *)
Fixpoint for_each_py {S A} (xs : list A) (body : A → py S unit) : py S unit :=
  match xs with
  | [] => mret tt
  | x :: xs' => body x;; for_each_py xs' body
  end.

(** The names bound at module level while a function of [plot_utils.py]
    runs: its six imports and its four functions. *)
Definition module_globals : list string :=
  ["matplotlib"; "plt"; "collections"; "ScalarMappable"; "Poly3DCollection";
   "np"; "set_axes_equal"; "plot_reference_configuration";
   "plot_custom_configuration"; "plot_crease_pattern"]%string.

(** The exception classes among Python's builtins. *)
Definition builtin_exceptions : list string :=
  ["BaseException"; "Exception"; "ArithmeticError"; "AssertionError";
   "AttributeError"; "BufferError"; "EOFError"; "FloatingPointError";
   "GeneratorExit"; "ImportError"; "ModuleNotFoundError"; "IndexError";
   "KeyError"; "KeyboardInterrupt"; "LookupError"; "MemoryError";
   "NameError"; "NotImplementedError"; "OSError"; "IOError";
   "EnvironmentError"; "OverflowError"; "RecursionError"; "ReferenceError";
   "RuntimeError"; "StopIteration"; "StopAsyncIteration"; "SyntaxError";
   "IndentationError"; "TabError"; "SystemError"; "SystemExit"; "TypeError";
   "UnboundLocalError"; "UnicodeError"; "UnicodeEncodeError";
   "UnicodeDecodeError"; "UnicodeTranslateError"; "ValueError";
   "ZeroDivisionError"; "BlockingIOError"; "ChildProcessError";
   "ConnectionError"; "BrokenPipeError"; "ConnectionAbortedError";
   "ConnectionRefusedError"; "ConnectionResetError"; "FileExistsError";
   "FileNotFoundError"; "InterruptedError"; "IsADirectoryError";
   "NotADirectoryError"; "PermissionError"; "ProcessLookupError";
   "TimeoutError"; "Warning"; "UserWarning"; "DeprecationWarning";
   "RuntimeWarning"]%string.

(** [raise cls(msg)].  The call expression [cls(msg)] is evaluated first and
    it begins by looking the name [cls] up: among the module's globals, then
    among the builtins.  A name found in neither raises [NameError], and
    the exception that was to be built never exists. *)
Definition raise_instance (cls msg : string) : exception :=
  if bool_decide (cls ∈ module_globals ++ builtin_exceptions)
  then UserError cls msg
  else NameError cls.

Definition Qc_of_nat (n : nat) : Qc := Qc_of_Z (Z.of_nat n).

Definition one_half : Qc := Q2Qc (1 # 2).

Definition py_gt (x y : Qc) : bool := bool_decide (y < x)%Qc.
Definition py_lt (x y : Qc) : bool := bool_decide (x < y)%Qc.

(** Python's [max] over a non-empty list: the running maximum is replaced
    only by an item strictly greater than it. *)
Definition py_max (x : Qc) (xs : list Qc) : Qc :=
  fold_left (λ m item, if py_gt item m then item else m) xs x.

(** [np.mean] of a pair of limits. *)
Definition np_mean (l : Qc * Qc) : Qc := ((l.1 + l.2) / Qc_of_nat 2)%Qc.

Definition vec2 : Type := Qc * Qc.
Definition vec3 : Type := Qc * Qc * Qc.
Definition vec4 : Type := Qc * Qc * Qc * Qc.
(** A 4x4 matrix, by rows. *)
Definition mat4 : Type := vec4 * vec4 * vec4 * vec4.

Definition dot4 (r v : vec4) : Qc :=
  let '(a, b, c, d) := r in
  let '(x, y, z, w) := v in
  (a * x + b * y + c * z + d * w)%Qc.

(** [np.dot(m, v)] for a 4x4 matrix and a vector of length 4. *)
Definition np_dot (m : mat4) (v : vec4) : vec4 :=
  let '(r0, r1, r2, r3) := m in
  (dot4 r0 v, dot4 r1 v, dot4 r2 v, dot4 r3 v).

Definition identity4 : mat4 :=
  ((1, 0, 0, 0), (0, 1, 0, 0), (0, 0, 1, 0), (0, 0, 0, 1))%Qc.

(** [np.zeros((k, 1))] and [np.ones((k, 1))]: a column of [k] entries. *)
Definition np_zeros (k : nat) : list Qc := replicate k 0%Qc.
Definition np_ones (k : nat) : list Qc := replicate k 1%Qc.

(** [np.hstack((rows, column))]: every row gets one more entry. *)
Definition np_hstack {A} (rows : list A) (column : list Qc) : list (A * Qc) :=
  zip rows column.

(** [np.append(p, z)] for a point of the plane. *)
Definition np_append (p : vec2) (z : Qc) : vec3 := (p, z).

(** Adding or subtracting a vector of length 3 to every row. *)
Definition add3 (t : vec3) (rows : list vec3) : list vec3 :=
  (λ '(x, y, z), let '(a, b, c) := t in (x + a, y + b, z + c)%Qc) <$> rows.
Definition sub3 (t : vec3) (rows : list vec3) : list vec3 :=
  (λ '(x, y, z), let '(a, b, c) := t in (x - a, y - b, z - c)%Qc) <$> rows.

(** ** matplotlib: palettes *)

Definition rgb : Type := Qc * Qc * Qc.
Definition rgba : Type := Qc * Qc * Qc * Qc.

(** A palette sends a position to a colour. *)
Definition Colormap : Type := Qc → rgba.

(** [plt.get_cmap(name)] looks the name up among the registered palettes
    and raises [ValueError] when there is none of that name. *)
Definition get_cmap (colormaps : string → option Colormap) (name : string)
  : outcome Colormap :=
  match colormaps name with
  | Some palette => Ok palette
  | None => Raise ValueError
  end.

Record Normalize : Type := { vmin : Qc; vmax : Qc }.

(** Calling a [Normalize]: the linear map that sends [vmin] to 0 and [vmax]
    to 1, and everything to 0 when the two coincide. *)
Definition normalize (n : Normalize) (v : Qc) : Qc :=
  if bool_decide (vmin n = vmax n) then 0%Qc
  else ((v - vmin n) / (vmax n - vmin n))%Qc.

Record ScalarMappable : Type := { norm : Normalize; cmap : Colormap }.

Definition to_rgba (m : ScalarMappable) (v : Qc) : rgba :=
  cmap m (normalize (norm m) v).

(** [c[:3]] *)
Definition rgb_of (c : rgba) : rgb := c.1.

(** ** matplotlib: the 3D axes *)

Definition polygon : Type := list vec3.

Inductive zsort_mode : Type := zsort_average | zsort_min | zsort_max.

Record Poly3DCollection : Type := {
  verts : list polygon;
  facecolor : option (list rgb);
  poly_alpha : option Qc;
  zsort : zsort_mode;
  edgecolor : option string
}.

(** [Poly3DCollection(verts)] with every keyword at its default. *)
Definition new_Poly3DCollection (vs : list polygon) : Poly3DCollection :=
  {| verts := vs; facecolor := None; poly_alpha := None;
     zsort := zsort_average; edgecolor := None |}.

Definition set_facecolor (cs : list rgb) (p : Poly3DCollection) :=
  {| verts := verts p; facecolor := Some cs; poly_alpha := poly_alpha p;
     zsort := zsort p; edgecolor := edgecolor p |}.
Definition set_alpha (a : Qc) (p : Poly3DCollection) :=
  {| verts := verts p; facecolor := facecolor p; poly_alpha := Some a;
     zsort := zsort p; edgecolor := edgecolor p |}.
Definition set_zsort (z : zsort_mode) (p : Poly3DCollection) :=
  {| verts := verts p; facecolor := facecolor p; poly_alpha := poly_alpha p;
     zsort := z; edgecolor := edgecolor p |}.
Definition set_edgecolor (c : string) (p : Poly3DCollection) :=
  {| verts := verts p; facecolor := facecolor p; poly_alpha := poly_alpha p;
     zsort := zsort p; edgecolor := Some c |}.

(** What [axes.collections] can hold: polygon collections, and collections
    of any other kind (lines, scatter points) that a caller attached. *)
Inductive Collection : Type :=
  | Polygons (p : Poly3DCollection)
  | OtherCollection (label : string).

Record Axes3D : Type := {
  xlim3d : Qc * Qc;
  ylim3d : Qc * Qc;
  zlim3d : Qc * Qc;
  collections : list Collection
}.

Definition get_xlim3d : py Axes3D (Qc * Qc) := gets xlim3d.
Definition get_ylim3d : py Axes3D (Qc * Qc) := gets ylim3d.
Definition get_zlim3d : py Axes3D (Qc * Qc) := gets zlim3d.

Definition set_xlim3d (l : Qc * Qc) : py Axes3D unit := modify (λ ax,
  {| xlim3d := l; ylim3d := ylim3d ax; zlim3d := zlim3d ax;
     collections := collections ax |}).
Definition set_ylim3d (l : Qc * Qc) : py Axes3D unit := modify (λ ax,
  {| xlim3d := xlim3d ax; ylim3d := l; zlim3d := zlim3d ax;
     collections := collections ax |}).
Definition set_zlim3d (l : Qc * Qc) : py Axes3D unit := modify (λ ax,
  {| xlim3d := xlim3d ax; ylim3d := ylim3d ax; zlim3d := l;
     collections := collections ax |}).

(** [axes.collections = cs] *)
Definition set_collections (cs : list Collection) : py Axes3D unit :=
  modify (λ ax,
  {| xlim3d := xlim3d ax; ylim3d := ylim3d ax; zlim3d := zlim3d ax;
     collections := cs |}).

Definition add_collection3d (p : Poly3DCollection) : py Axes3D unit :=
  modify (λ ax,
  {| xlim3d := xlim3d ax; ylim3d := ylim3d ax; zlim3d := zlim3d ax;
     collections := collections ax ++ [Polygons p] |}).

(** ** matplotlib: the 2D axes *)

Record LineCollection : Type := {
  segments : list (list vec2);
  colors : list rgb;
  linewidths : Qc
}.

Record Annotation : Type := {
  text : string;
  xy : vec2;
  textcoords : string;
  xytext : Z * Z;
  ha : string;
  fontsize : nat;
  fontweight : option string
}.

(** What the planar diagram puts on the axes, in drawing order. *)
Inductive Artist : Type :=
  | Lines (lc : LineCollection)
  | Scatter (xs ys : list Qc) (zorder : Z)
  | Text (a : Annotation).

(** The aspect setting: ['auto'], or a number [a], with which one data unit
    along y is drawn [a] times as long as one data unit along x. *)
Inductive Aspect : Type :=
  | aspect_auto
  | aspect_ratio (a : Qc).

(** A 2D axes.  [xlim] and [ylim] are the view limits.  An axis whose
    flag [autoscalex_on] or [autoscaley_on] is set follows the data:
    matplotlib clears the flag when the caller sets the limits of that
    axis, and it is set on a new axes.  [autoscaled] gives the limits that
    matplotlib's [autoscale_view] computes for the artists on the axes, x
    limits first; it depends on the data of the line collections and
    markers and on settings of the axes (margins, scale) that
    [plot_utils.py] never touches. *)
Record Axes2D : Type := {
  xlim : Qc * Qc;
  ylim : Qc * Qc;
  autoscalex_on : bool;
  autoscaley_on : bool;
  autoscaled : list Artist → (Qc * Qc) * (Qc * Qc);
  aspect : Aspect;
  artists : list Artist
}.

Definition get_xlim : py Axes2D (Qc * Qc) := gets xlim.
Definition get_ylim : py Axes2D (Qc * Qc) := gets ylim.

Definition add_artist (a : Artist) : py Axes2D unit := modify (λ ax,
  {| xlim := xlim ax; ylim := ylim ax;
     autoscalex_on := autoscalex_on ax; autoscaley_on := autoscaley_on ax;
     autoscaled := autoscaled ax; aspect := aspect ax;
     artists := artists ax ++ [a] |}).

(** The axes after [autoscale_view]: every axis that autoscales gets the
    limits computed from the artists, the others keep theirs. *)
Definition autoscale_view (ax : Axes2D) : Axes2D :=
  {| xlim := if autoscalex_on ax then (autoscaled ax (artists ax)).1
             else xlim ax;
     ylim := if autoscaley_on ax then (autoscaled ax (artists ax)).2
             else ylim ax;
     autoscalex_on := autoscalex_on ax; autoscaley_on := autoscaley_on ax;
     autoscaled := autoscaled ax; aspect := aspect ax;
     artists := artists ax |}.

(** [add_collection] puts the collection on the axes, where its segments
    count as data from then on.  The limits are next read after [scatter],
    which is where the model brings the view up to date. *)
Definition add_collection (lc : LineCollection) : py Axes2D unit :=
  add_artist (Lines lc).

(** [scatter] puts the markers on the axes and asks for the view to be
    rescaled to the data, the line collections included.  matplotlib
    carries the request out when the limits are next read; nothing happens
    to the axes in between, so the model carries it out at once. *)
Definition scatter (xs ys : list Qc) (zorder : Z) : py Axes2D unit :=
  add_artist (Scatter xs ys zorder);;
  modify autoscale_view.
Definition annotate (label : string) (p : vec2) (coords : string)
    (offset : Z * Z) (align : string) (size : nat) (weight : option string)
  : py Axes2D unit :=
  add_artist (Text {| text := label; xy := p; textcoords := coords;
                      xytext := offset; ha := align; fontsize := size;
                      fontweight := weight |}).

Definition set_aspect (a : Qc) : py Axes2D unit := modify (λ ax,
  {| xlim := xlim ax; ylim := ylim ax;
     autoscalex_on := autoscalex_on ax; autoscaley_on := autoscaley_on ax;
     autoscaled := autoscaled ax; aspect := aspect_ratio a;
     artists := artists ax |}).

(** ** The crease pattern *)

(** The attributes of the crease-pattern object that [plot_utils.py] reads.
    [compute_folding_map] is its one method used here; the class itself is
    defined in another module. *)
Record CreasePattern : Type := {
  num_faces : nat;
  num_folds : nat;
  face_corner_points : list (list vec2);
  num_face_corner_points : list nat;
  face_centers : list vec2;
  fixed_face : nat;
  reference_points : list vec2;
  p1 : list vec2;
  p2 : list vec2;
  fold_vector_points : list (nat * nat);
  fold_angle_target : list Qc;
  compute_folding_map : list Qc → list mat4
}.

(** ** The four functions *)

Section plot_utils.

(** matplotlib's registry of palettes: the palette registered under a
    name, if there is one. *)
Variable colormaps : string → option Colormap.

Definition new_ScalarMappable (n : Normalize) (c : Colormap) : ScalarMappable :=
  {| norm := n; cmap := c |}.

Definition set_axes_equal : py Axes3D unit :=
  x_limits ← get_xlim3d;
  y_limits ← get_ylim3d;
  z_limits ← get_zlim3d;
  let x_range := Qcabs (x_limits.2 - x_limits.1) in
  let x_middle := np_mean x_limits in
  let y_range := Qcabs (y_limits.2 - y_limits.1) in
  let y_middle := np_mean y_limits in
  let z_range := Qcabs (z_limits.2 - z_limits.1) in
  let z_middle := np_mean z_limits in
  let plot_radius := (one_half * py_max x_range [y_range; z_range])%Qc in
  set_xlim3d (x_middle - plot_radius, x_middle + plot_radius)%Qc;;
  set_ylim3d (y_middle - plot_radius, y_middle + plot_radius)%Qc;;
  set_zlim3d (z_middle - plot_radius, z_middle + plot_radius)%Qc.

(** The body of the loop over the corner points of one face:
    [points_4d[j] = np.dot(composite, points_4d[j])]. *)
Definition transform_row (composite : mat4) (j : nat) (points_4d : list vec4)
  : outcome (list vec4) :=
  row ← index points_4d j;
  setitem points_4d j (np_dot composite row).

(** The body of the loop over the faces. *)
Definition append_face (crease_pattern : CreasePattern) (face_map : list mat4)
    (size_x size_y : Qc) (i : nat) (all_polys : list polygon)
  : outcome (list polygon) :=
  corners ← index (face_corner_points crease_pattern) i;
  count ← index (num_face_corner_points crease_pattern) i;
  let points_2d := take count corners in
  let extra_0 := np_zeros (length points_2d) in
  let extra_1 := np_ones (length points_2d) in
  let points_3d := np_hstack points_2d extra_0 in
  let points_4d := np_hstack points_3d extra_1 in
  composite ← index face_map i;
  count' ← index (num_face_corner_points crease_pattern) i;
  points_4d ← for_each (range count') (transform_row composite) points_4d;
  center ← index (face_centers crease_pattern) (fixed_face crease_pattern);
  let fixed_face_center := np_append center 0%Qc in
  Ok (all_polys ++
      [sub3 fixed_face_center
         (add3 (size_x * one_half, size_y * one_half, 0)%Qc (fst <$> points_4d))]).

Definition plot_custom_configuration (crease_pattern : CreasePattern)
    (fold_angles : list Qc) (color_map_name : string) (alpha : Qc)
    (edges : bool) : py Axes3D unit :=
  palette ← lift (get_cmap colormaps color_map_name);
  let scalar_color_map :=
    new_ScalarMappable
      {| vmin := 0%Qc; vmax := Qc_of_nat (num_faces crease_pattern) |}
      palette in
  '(_, size_x) ← get_xlim3d;
  '(_, size_y) ← get_ylim3d;
  if bool_decide (length fold_angles ≠ num_folds crease_pattern)
  then raise (raise_instance "Error" "Invalid number of fold angles")
  else
    set_collections [];;
    let face_map := compute_folding_map crease_pattern fold_angles in
    all_polys ← lift (for_each (range (num_faces crease_pattern))
                        (append_face crease_pattern face_map size_x size_y) []);
    let poly_collection := new_Poly3DCollection all_polys in
    let poly_collection :=
      set_facecolor
        ((λ i, rgb_of (to_rgba scalar_color_map (Qc_of_nat i)))
           <$> range (num_faces crease_pattern))
        poly_collection in
    let poly_collection := set_alpha alpha poly_collection in
    let poly_collection := set_zsort zsort_max poly_collection in
    let poly_collection :=
      if edges then set_edgecolor "k" poly_collection else poly_collection in
    add_collection3d poly_collection.

(** The defaults of the keyword arguments of [plot_custom_configuration]. *)
Definition default_color_map_name : string := "terrain".
Definition default_alpha : Qc := 1%Qc.
Definition default_edges : bool := false.

Definition plot_reference_configuration (crease_pattern : CreasePattern)
  : py Axes3D unit :=
  let fold_angles := (λ _, 0%Qc) <$> range (num_folds crease_pattern) in
  plot_custom_configuration crease_pattern fold_angles
    default_color_map_name default_alpha default_edges.

(** Truth value of the keyword [color_map_name], a string or [None]. *)
Definition truthy (name : option string) : bool :=
  match name with
  | None => false
  | Some s => bool_decide (s ≠ EmptyString)
  end.

Definition m_color : rgb := (1, 0, 0)%Qc.
Definition v_color : rgb := (0, 0, 1)%Qc.
Definition b_color : rgb := (0, 0, 0)%Qc.

(** The body of the loop that gives every fold its default colour. *)
Definition append_fold_color (crease_pattern : CreasePattern) (i : nat)
    (colors : list rgb) : outcome (list rgb) :=
  target ← index (fold_angle_target crease_pattern) i;
  if py_lt target 0%Qc then Ok (colors ++ [v_color])
  else
    target' ← index (fold_angle_target crease_pattern) i;
    if py_gt target' 0%Qc then Ok (colors ++ [m_color])
    else Ok (colors ++ [b_color]).

Definition newline : string := String (Ascii.ascii_of_nat 10) EmptyString.

Definition plot_crease_pattern (crease_pattern : CreasePattern)
    (color_map_name : option string)
    (annotate_folds annotate_reference_points annotate_faces : bool)
  : py Axes2D unit :=
  colors ← lift (
    if truthy color_map_name then
      palette ← get_cmap colormaps (default EmptyString color_map_name);
      let scalar_color_map :=
        new_ScalarMappable
          {| vmin := 0%Qc; vmax := Qc_of_nat (num_folds crease_pattern) |}
          palette in
      Ok ((λ i, rgb_of (to_rgba scalar_color_map (Qc_of_nat i)))
            <$> range (num_folds crease_pattern))
    else
      for_each (range (num_folds crease_pattern))
        (append_fold_color crease_pattern) []);
  let line_segments :=
    (λ '(a, b), [a; b]) <$> zip (p1 crease_pattern) (p2 crease_pattern) in
  let line_segment_midpoints :=
    (λ '(a, b), ((a.1 + b.1) * one_half, (a.2 + b.2) * one_half)%Qc)
      <$> zip (p1 crease_pattern) (p2 crease_pattern) in
  let line_collection :=
    {| segments := line_segments; colors := colors; linewidths := 1%Qc |} in
  add_collection line_collection;;
  scatter (fst <$> reference_points crease_pattern)
          (snd <$> reference_points crease_pattern) 2;;
  let aspect_ratio := 1%Qc in
  '(xleft, xright) ← get_xlim;
  '(ybottom, ytop) ← get_ylim;
  set_aspect (Qcabs ((xright - xleft) / (ybottom - ytop)) * aspect_ratio)%Qc;;
  (if annotate_folds then
     for_each_py (enumerate line_segment_midpoints) (λ '(i, (x, y)),
       ends ← lift (index (fold_vector_points crease_pattern) i);
       ends' ← lift (index (fold_vector_points crease_pattern) i);
       let label := "e" +:+ pretty i +:+ newline +:+ pretty ends.1
                        +:+ "-" +:+ pretty ends'.2 in
       annotate label (x, y) "offset points" (0, 0)%Z "center" 8 (Some "bold"))
   else mret tt);;
  (if annotate_reference_points then
     for_each_py (enumerate (reference_points crease_pattern)) (λ '(i, (x, y)),
       let label := "v" +:+ pretty i in
       annotate label (x, y) "offset points" (0, 4)%Z "center" 8 None)
   else mret tt);;
  (if annotate_faces then
     for_each_py (enumerate (face_centers crease_pattern)) (λ '(i, (x, y)),
       let label := "F" +:+ pretty i in
       annotate label (x, y) "offset points" (0, 0)%Z "center" 8 None)
   else mret tt).

End plot_utils.

(** ** Closed forms and predicates used in the statements *)

(** What the loop over the faces does to one corner point [p]: lift it to
    [(x, y, 0, 1)], multiply by the face's matrix, drop the last coordinate,
    add [(size_x * 0.5, size_y * 0.5, 0)] and subtract the lifted centre of
    the fixed face. *)
Definition folded_vertex (composite : mat4) (size_x size_y : Qc)
    (center p : vec2) : vec3 :=
  let '(x, y, z, _) := np_dot composite (p, 0, 1)%Qc in
  (x + size_x * one_half - center.1, y + size_y * one_half - center.2, z + 0 - 0)%Qc.

(** The polygon of face [i], when every array has an entry for it. *)
Definition folded_face (cp : CreasePattern) (face_map : list mat4)
    (size_x size_y : Qc) (i : nat) : polygon :=
  match face_corner_points cp !! i, num_face_corner_points cp !! i,
        face_map !! i, face_centers cp !! fixed_face cp with
  | Some corners, Some count, Some composite, Some center =>
      folded_vertex composite size_x size_y center <$> take count corners
  | _, _, _, _ => []
  end.

(** Face [i] can be drawn: the arrays reach index [i], the fixed face has a
    centre, and the face has as many corner slots as its count says. *)
Definition face_renderable (cp : CreasePattern) (face_map : list mat4)
    (i : nat) : bool :=
  match face_corner_points cp !! i, num_face_corner_points cp !! i,
        face_map !! i, face_centers cp !! fixed_face cp with
  | Some corners, Some count, Some _, Some _ =>
      bool_decide (count ≤ length corners)
  | _, _, _, _ => false
  end.

Definition renderable (cp : CreasePattern) (fold_angles : list Qc) : bool :=
  forallb (face_renderable cp (compute_folding_map cp fold_angles))
          (range (num_faces cp)).

(** The position on the palette that face (or fold) [i] of [n] is sent to. *)
Definition palette_position (n i : nat) : Qc :=
  normalize {| vmin := 0%Qc; vmax := Qc_of_nat n |} (Qc_of_nat i).

Definition face_colors (palette : Colormap) (n : nat) : list rgb :=
  (λ i, rgb_of (palette (palette_position n i))) <$> range n.

(** The collection that a successful call of [plot_custom_configuration]
    attaches. *)
Definition folded_surface (palette : Colormap) (cp : CreasePattern)
    (fold_angles : list Qc) (alpha : Qc) (edges : bool) (ax : Axes3D)
  : Poly3DCollection :=
  {| verts := folded_face cp (compute_folding_map cp fold_angles)
                (xlim3d ax).2 (ylim3d ax).2 <$> range (num_faces cp);
     facecolor := Some (face_colors palette (num_faces cp));
     poly_alpha := Some alpha;
     zsort := zsort_max;
     edgecolor := if edges then Some "k"%string else None |}.

Definition with_collections (cs : list Collection) (ax : Axes3D) : Axes3D :=
  {| xlim3d := xlim3d ax; ylim3d := ylim3d ax; zlim3d := zlim3d ax;
     collections := cs |}.

Definition is_polygons (c : Collection) : bool :=
  match c with
  | Polygons _ => true
  | OtherCollection _ => false
  end.

(** The collections on the axes that are not polygon collections. *)
Definition other_collections (ax : Axes3D) : list Collection :=
  filter (λ c, is_polygons c = false) (collections ax).

Definition polygon_collections (ax : Axes3D) : list Collection :=
  filter (λ c, is_polygons c = true) (collections ax).

(** The crease pattern with other corner-point rows, all else the same. *)
Definition with_face_corner_points (rows : list (list vec2))
    (cp : CreasePattern) : CreasePattern :=
  {| num_faces := num_faces cp; num_folds := num_folds cp;
     face_corner_points := rows;
     num_face_corner_points := num_face_corner_points cp;
     face_centers := face_centers cp; fixed_face := fixed_face cp;
     reference_points := reference_points cp; p1 := p1 cp; p2 := p2 cp;
     fold_vector_points := fold_vector_points cp;
     fold_angle_target := fold_angle_target cp;
     compute_folding_map := compute_folding_map cp |}.

(** Modelled from the spec: [compute_folding_map] belongs to the
    crease-pattern class, whose module is not part of these sources.  The
    spec calls the fixed face "the face treated as stationary; all other
    faces' transforms are expressed relative to it": for every fold-angle
    vector of the right length its transform is the identity. *)
Definition fixed_face_stationary (cp : CreasePattern) : Prop :=
  ∀ fold_angles, length fold_angles = num_folds cp →
    compute_folding_map cp fold_angles !! fixed_face cp = Some identity4.

(** Modelled from the spec: [face_centers] holds "one 2D point per face
    (centroid in flat layout)", and the centroid of a face is taken to be
    the mean of its corner points, in the plane and in space. *)
Definition centroid (points : list vec2) : vec2 :=
  (foldr Qcplus 0 (fst <$> points) / Qc_of_nat (length points),
   foldr Qcplus 0 (snd <$> points) / Qc_of_nat (length points))%Qc.

Definition centroid3 (points : list vec3) : vec3 :=
  (foldr Qcplus 0 ((λ p : vec3, p.1.1) <$> points)
   / Qc_of_nat (length points),
   foldr Qcplus 0 ((λ p : vec3, p.1.2) <$> points)
   / Qc_of_nat (length points),
   foldr Qcplus 0 ((λ p : vec3, p.2) <$> points)
   / Qc_of_nat (length points))%Qc.

(** The reading of the aspect setting under which one data unit along x is
    drawn as long as one data unit along y: the ratio is 1. *)
Definition equal_data_units (ax : Axes2D) : Prop :=
  aspect ax = aspect_ratio 1%Qc.

(** The default colour of a fold, by the sign of its target angle. *)
Definition sign_color (target : Qc) : rgb :=
  if py_lt target 0%Qc then v_color
  else if py_gt target 0%Qc then m_color
  else b_color.

(** The fold-angle vector of the reference configuration, as the
    description of the reference renderer words it: [n] zeros. *)
Definition zeros (n : nat) : list Qc := replicate n 0%Qc.

(** Corner rows that agree with those of [cp] on the valid prefix of every
    face, and may differ in the unused trailing slots. *)
Definition same_valid_corners (cp : CreasePattern) (rows : list (list vec2))
  : Prop :=
  ∀ i count, i < num_faces cp → num_face_corner_points cp !! i = Some count →
    take count <$> rows !! i = take count <$> face_corner_points cp !! i.

(** The colours [plot_crease_pattern] computes before it draws anything. *)
Definition crease_colors (colormaps : string → option Colormap)
    (cp : CreasePattern) (color_map_name : option string)
  : outcome (list rgb) :=
  if truthy color_map_name then
    palette ← get_cmap colormaps (default EmptyString color_map_name);
    Ok (face_colors palette (num_folds cp))
  else
    for_each (range (num_folds cp)) (append_fold_color cp) [].

(** The colours can be computed: in palette mode the name is registered,
    in the default mode every fold has a target angle. *)
Definition colors_available (colormaps : string → option Colormap)
    (cp : CreasePattern) (color_map_name : option string) : Prop :=
  if truthy color_map_name
  then is_Some (colormaps (default EmptyString color_map_name))
  else num_folds cp ≤ length (fold_angle_target cp).

(** The first two artists of the planar diagram. *)
Definition crease_lines (cp : CreasePattern) (cs : list rgb) : Artist :=
  Lines {| segments := (λ '(a, b), [a; b]) <$> zip (p1 cp) (p2 cp);
           colors := cs; linewidths := 1%Qc |}.

Definition crease_markers (cp : CreasePattern) : Artist :=
  Scatter (fst <$> reference_points cp) (snd <$> reference_points cp) 2.

(** The number handed to [set_aspect]. *)
Definition box_aspect (ax : Axes2D) : Qc :=
  (Qcabs (((xlim ax).2 - (xlim ax).1) / ((ylim ax).1 - (ylim ax).2)) * 1)%Qc.

Definition with_artists (extra : list Artist) (ax : Axes2D) : Axes2D :=
  {| xlim := xlim ax; ylim := ylim ax;
     autoscalex_on := autoscalex_on ax; autoscaley_on := autoscaley_on ax;
     autoscaled := autoscaled ax; aspect := aspect ax;
     artists := artists ax ++ extra |}.

Definition with_aspect (a : Qc) (ax : Axes2D) : Axes2D :=
  {| xlim := xlim ax; ylim := ylim ax;
     autoscalex_on := autoscalex_on ax; autoscaley_on := autoscaley_on ax;
     autoscaled := autoscaled ax; aspect := aspect_ratio a;
     artists := artists ax |}.

(** The axes once the lines and the markers are on them and the view has
    followed the data: what [get_xlim] and [get_ylim] read. *)
Definition lines_and_markers (cp : CreasePattern) (cs : list rgb)
    (ax : Axes2D) : Axes2D :=
  autoscale_view (with_artists [crease_lines cp cs; crease_markers cp] ax).

(** Sizes on the page, measured in the length that one data unit along x
    is drawn with: under the aspect [a] one data unit along y is drawn [a]
    times as long. *)
Definition drawn_width (ax : Axes2D) : Qc :=
  Qcabs ((xlim ax).2 - (xlim ax).1).

Definition drawn_height (ax : Axes2D) : option Qc :=
  match aspect ax with
  | aspect_ratio a => Some (a * Qcabs ((ylim ax).2 - (ylim ax).1))%Qc
  | aspect_auto => None
  end.

(** ** Example data *)

(** A palette backed by a table of colours, as matplotlib's palettes are:
    position [x] in [[0, 1)] reads entry [floor (x * size)]. *)
Definition ListedColormap (table : list rgba) : Colormap := λ x,
  let k := Z.to_nat (Qfloor (x * Qc_of_nat (length table))%Qc) in
  default (0, 0, 0, 1)%Qc (table !! (k `min` (length table - 1))).

Definition two_tone : Colormap :=
  ListedColormap [(0, 0, 0, 1); (1, 1, 1, 1)]%Qc.

(** A ramp from black to white, for palettes without steps. *)
Definition gray : Colormap := λ x, (x, x, x, 1%Qc).

(** A strip of unit squares, [n] parallel folds between [n + 1] faces.
    Each face has four corners and one unused trailing slot.  Every fold
    with a non-zero angle is folded flat (a one_half turn about the fold
    line), the one non-trivial rotation with rational entries. *)
Definition strip_transform (s t : Qc) : mat4 :=
  ((s, 0, 0, t), (0, 1, 0, 0), (0, 0, s, 0), (0, 0, 0, 1))%Qc.

Fixpoint accordion_map (fold_angles : list Qc) (j : nat) (s t : Qc)
  : list mat4 :=
  strip_transform s t ::
  match fold_angles with
  | [] => []
  | a :: rest =>
      if bool_decide (a = 0%Qc) then accordion_map rest (S j) s t
      else accordion_map rest (S j) (- s)%Qc
             (s * (Qc_of_nat 2 * Qc_of_nat (S j)) + t)%Qc
  end.

Definition accordion_target (j : nat) : Qc :=
  match j `mod` 3 with
  | 0 => (- one_half)%Qc
  | 1 => one_half
  | _ => 0%Qc
  end.

Definition accordion (n : nat) : CreasePattern :=
  {| num_faces := S n;
     num_folds := n;
     face_corner_points :=
       (λ k, [(Qc_of_nat k, 0); (Qc_of_nat (S k), 0); (Qc_of_nat (S k), 1);
              (Qc_of_nat k, 1); (0, 0)]%Qc) <$> range (S n);
     num_face_corner_points := replicate (S n) 4;
     face_centers := (λ k, (Qc_of_nat k + one_half, one_half)%Qc) <$> range (S n);
     fixed_face := 0;
     reference_points :=
       range (S (S n)) ≫= (λ k, [(Qc_of_nat k, 0); (Qc_of_nat k, 1)]%Qc);
     p1 := (λ j, (Qc_of_nat (S j), 0)%Qc) <$> range n;
     p2 := (λ j, (Qc_of_nat (S j), 1)%Qc) <$> range n;
     fold_vector_points := (λ j, (2 * S j, 2 * S j + 1)%nat) <$> range n;
     fold_angle_target := accordion_target <$> range n;
     compute_folding_map := λ fold_angles, accordion_map fold_angles 0 1 0 |}%Qc.

Definition blank_axes3d : Axes3D :=
  {| xlim3d := (0, Qc_of_nat 4)%Qc; ylim3d := (0, Qc_of_nat 2)%Qc;
     zlim3d := (- 1, 1)%Qc; collections := [] |}.

(** Autoscaling as matplotlib does it with its default settings: the
    limits are the least and the greatest coordinate of the data, moved
    apart by 5% of their distance.  A single value [v] is first widened by
    5% of [abs v], or to [-0.05, 0.05] when it is 0 or there is no data. *)
Definition data_xs (a : Artist) : list Qc :=
  match a with
  | Lines lc => fst <$> concat (segments lc)
  | Scatter xs _ _ => xs
  | Text _ => []
  end.

Definition data_ys (a : Artist) : list Qc :=
  match a with
  | Lines lc => snd <$> concat (segments lc)
  | Scatter _ ys _ => ys
  | Text _ => []
  end.

Definition py_min (x : Qc) (xs : list Qc) : Qc :=
  fold_left (λ m item, if py_lt item m then item else m) xs x.

Definition one_twentieth : Qc := Q2Qc (1 # 20).

Definition nonsingular (l : Qc * Qc) : Qc * Qc :=
  if bool_decide (l.1 = l.2) then
    if bool_decide (l.1 = 0%Qc) then (- one_twentieth, one_twentieth)%Qc
    else (l.1 - one_twentieth * Qcabs l.1, l.2 + one_twentieth * Qcabs l.2)%Qc
  else l.

Definition with_margins (l : Qc * Qc) : Qc * Qc :=
  let delta := ((l.2 - l.1) * one_twentieth)%Qc in
  (l.1 - delta, l.2 + delta)%Qc.

Definition autoscale_interval (values : list Qc) : Qc * Qc :=
  with_margins
    match values with
    | [] => (- one_twentieth, one_twentieth)%Qc
    | v :: vs => nonsingular (py_min v vs, py_max v vs)
    end.

Definition default_margins (arts : list Artist) : (Qc * Qc) * (Qc * Qc) :=
  (autoscale_interval (arts ≫= data_xs), autoscale_interval (arts ≫= data_ys)).

(** An axes whose limits the caller has set, to 2 by 1. *)
Definition blank_axes2d : Axes2D :=
  {| xlim := (0, Qc_of_nat 2)%Qc; ylim := (0, 1)%Qc;
     autoscalex_on := false; autoscaley_on := false;
     autoscaled := default_margins; aspect := aspect_auto; artists := [] |}.

(** A new axes: the limits are 0 and 1 and both axes autoscale. *)
Definition new_axes2d : Axes2D :=
  {| xlim := (0, 1)%Qc; ylim := (0, 1)%Qc;
     autoscalex_on := true; autoscaley_on := true;
     autoscaled := default_margins; aspect := aspect_auto; artists := [] |}.

(** A palette registry with the two palettes above: the table under
    ["two_tone"], the ramp under ["gray"] and, standing in for matplotlib's
    palette of that name, under ["terrain"]. *)
Definition example_cmaps (name : string) : option Colormap :=
  if bool_decide (name = "two_tone"%string) then Some two_tone
  else if bool_decide (name = "gray"%string ∨ name = "terrain"%string)
  then Some gray
  else None.

(** A 3D axes with integer limits. *)
Definition axes3d_of (x y z : Z * Z) (cs : list Collection) : Axes3D :=
  {| xlim3d := (Qc_of_Z x.1, Qc_of_Z x.2);
     ylim3d := (Qc_of_Z y.1, Qc_of_Z y.2);
     zlim3d := (Qc_of_Z z.1, Qc_of_Z z.2);
     collections := cs |}.

(** * Spans, labels and the annotated diagram *)

(** [abs(limits[1] - limits[0])], the [x_range] of [set_axes_equal]. *)
Definition span (l : Qc * Qc) : Qc := Qcabs (l.2 - l.1).

(** [max([x_range, y_range, z_range])]. *)
Definition largest_span (ax : Axes3D) : Qc :=
  py_max (span (xlim3d ax)) [span (ylim3d ax); span (zlim3d ax)].

(** [[(a + b) * 0.5 for a, b in zip(p1, p2)]]. *)
Definition line_segment_midpoints (cp : CreasePattern) : list vec2 :=
  (λ '(a, b), ((a.1 + b.1) * one_half, (a.2 + b.2) * one_half)%Qc)
    <$> zip (p1 cp) (p2 cp).

(** What one [annotate] call of [plot_crease_pattern] adds: all three
    loops pass the same text coordinates, alignment and font size. *)
Definition label (s : string) (p : vec2) (offset : Z * Z)
    (weight : option string) : Artist :=
  Text {| text := s; xy := p; textcoords := "offset points";
          xytext := offset; ha := "center"; fontsize := 8;
          fontweight := weight |}.

(** The labels of the three annotation loops: ['e{}\n{}-{}'], ['v{}'] and
    ['F{}']. *)
Definition fold_label (i : nat) (p : vec2) (ends : nat * nat) : Artist :=
  label ("e" +:+ pretty i +:+ newline +:+ pretty ends.1 +:+ "-"
           +:+ pretty ends.2) p (0, 0)%Z (Some "bold"%string).

Definition vertex_label (i : nat) (p : vec2) : Artist :=
  label ("v" +:+ pretty i) p (0, 4)%Z None.

Definition face_label (i : nat) (p : vec2) : Artist :=
  label ("F" +:+ pretty i) p (0, 0)%Z None.

(** The labels each loop adds when it runs to its end.  The fold loop
    indexes [fold_vector_points] by the position of the midpoint, so the
    zip below is what it adds up to the first missing pair. *)
Definition fold_labels (cp : CreasePattern) : list Artist :=
  (λ '(i, p, ends), fold_label i p ends)
    <$> zip (enumerate (line_segment_midpoints cp)) (fold_vector_points cp).

Definition vertex_labels (cp : CreasePattern) : list Artist :=
  (λ '(i, p), vertex_label i p) <$> enumerate (reference_points cp).

Definition face_labels (cp : CreasePattern) : list Artist :=
  (λ '(i, p), face_label i p) <$> enumerate (face_centers cp).

(** The axes once the lines and the markers are drawn and the aspect is
    set, from the limits read after the drawing. *)
Definition diagram_drawn (cp : CreasePattern) (cs : list rgb) (ax : Axes2D)
  : Axes2D :=
  with_aspect (box_aspect (lines_and_markers cp cs ax))
    (lines_and_markers cp cs ax).

(** Whether [fold_vector_points[i]] exists for every midpoint. *)
Definition fold_labels_fit (cp : CreasePattern) : bool :=
  bool_decide (length (line_segment_midpoints cp)
               ≤ length (fold_vector_points cp)).

(** The three annotation loops in closed form: the fold loop raises
    [IndexError] at the first midpoint without a pair of endpoint indices,
    having added the labels before it. *)
Definition diagram_labelled (cp : CreasePattern)
    (annotate_folds annotate_reference_points annotate_faces : bool)
    (ax : Axes2D) : outcome unit * Axes2D :=
  if annotate_folds && negb (fold_labels_fit cp)
  then (Raise IndexError, with_artists (fold_labels cp) ax)
  else (Ok tt,
        with_artists
          ((if annotate_folds then fold_labels cp else []) ++
           (if annotate_reference_points then vertex_labels cp else []) ++
           (if annotate_faces then face_labels cp else [])) ax).

(** A pattern with one array replaced. *)
Definition with_fold_vector_points (ends : list (nat * nat))
    (cp : CreasePattern) : CreasePattern :=
  {| num_faces := num_faces cp; num_folds := num_folds cp;
     face_corner_points := face_corner_points cp;
     num_face_corner_points := num_face_corner_points cp;
     face_centers := face_centers cp; fixed_face := fixed_face cp;
     reference_points := reference_points cp; p1 := p1 cp; p2 := p2 cp;
     fold_vector_points := ends;
     fold_angle_target := fold_angle_target cp;
     compute_folding_map := compute_folding_map cp |}.

Definition with_fold_angle_target (targets : list Qc)
    (cp : CreasePattern) : CreasePattern :=
  {| num_faces := num_faces cp; num_folds := num_folds cp;
     face_corner_points := face_corner_points cp;
     num_face_corner_points := num_face_corner_points cp;
     face_centers := face_centers cp; fixed_face := fixed_face cp;
     reference_points := reference_points cp; p1 := p1 cp; p2 := p2 cp;
     fold_vector_points := fold_vector_points cp;
     fold_angle_target := targets;
     compute_folding_map := compute_folding_map cp |}.

(** A pattern without faces and folds. *)
Definition empty_pattern : CreasePattern :=
  {| num_faces := 0; num_folds := 0; face_corner_points := [];
     num_face_corner_points := []; face_centers := []; fixed_face := 0;
     reference_points := []; p1 := []; p2 := []; fold_vector_points := [];
     fold_angle_target := []; compute_folding_map := λ _, [] |}.

(** * Properties *)

(** Equality of closed terms that contain rationals. *)
Ltac qc_eq :=
  repeat first
    [ reflexivity
    | apply Qc_is_canon; vm_compute; reflexivity
    | f_equal ].

(** ** Indexing and loops *)

Lemma index_Some {A} (l : list A) i x : l !! i = Some x → index l i = Ok x.
Proof. intros H. unfold index. by rewrite H. Qed.

Lemma index_None {A} (l : list A) i :
  l !! i = None → index l i = Raise IndexError.
Proof. intros H. unfold index. by rewrite H. Qed.

Lemma setitem_lt {A} (l : list A) i v :
  i < length l → setitem l i v = Ok (<[i:=v]> l).
Proof. intros H. unfold setitem. by rewrite bool_decide_eq_true_2. Qed.

Lemma for_each_app {A B} (xs ys : list A) (body : A → B → outcome B) acc :
  for_each (xs ++ ys) body acc = for_each xs body acc ≫= for_each ys body.
Proof.
  revert acc. induction xs as [|x xs IH]; intros acc; [done|].
  cbn [app for_each]. destruct (body x acc) as [acc'|e]; [|done].
  cbn [mbind outcome_bind]. apply IH.
Qed.

Lemma bind_lift_Ok {S A B} (a : A) (k : A → py S B) s :
  (lift (Ok a) ≫= k) s = k a s.
Proof. reflexivity. Qed.

Lemma bind_gets {S A B} (f : S → A) (k : A → py S B) s :
  (gets f ≫= k) s = k (f s) s.
Proof. reflexivity. Qed.

Lemma bind_modify {S B} (f : S → S) (k : unit → py S B) s :
  (modify f ≫= k) s = k tt (f s).
Proof. reflexivity. Qed.

Lemma bind_add_artist {B} (a : Artist) (k : unit → py Axes2D B) s :
  (add_artist a ≫= k) s = k tt (with_artists [a] s).
Proof. reflexivity. Qed.

(** ** The loop over the corner points of a face *)

Lemma transform_row_middle composite (finished : list vec4) row rest :
  transform_row composite (length finished) (finished ++ row :: rest)
  = Ok (finished ++ np_dot composite row :: rest).
Proof.
  unfold transform_row.
  rewrite (index_Some _ _ row) by (by apply list_lookup_middle).
  cbn [mbind outcome_bind].
  rewrite setitem_lt by (rewrite length_app; cbn; lia).
  rewrite insert_app_r_alt by lia.
  by rewrite Nat.sub_diag.
Qed.

Lemma transform_row_past_end composite (points_4d : list vec4) j :
  length points_4d ≤ j → transform_row composite j points_4d = Raise IndexError.
Proof.
  intros H. unfold transform_row.
  by rewrite index_None by by apply lookup_ge_None.
Qed.

(** The invariant of the loop: the rows before the current index are
    transformed, the others are as they were. *)
Lemma transform_rows_split composite (todo : list vec4) :
  ∀ finished rest,
    for_each (seq (length finished) (length todo)) (transform_row composite)
      (finished ++ todo ++ rest)
    = Ok (finished ++ (np_dot composite <$> todo) ++ rest).
Proof.
  induction todo as [|row todo IH]; intros finished rest; [done|].
  cbn [length seq for_each fmap list_fmap app].
  rewrite transform_row_middle.
  cbn [mbind outcome_bind].
  specialize (IH (finished ++ [np_dot composite row]) rest).
  rewrite length_app, Nat.add_1_r, <- !(assoc_L (++)) in IH.
  exact IH.
Qed.

Lemma transform_rows composite (points_4d : list vec4) n :
  n = length points_4d →
  for_each (range n) (transform_row composite) points_4d
  = Ok (np_dot composite <$> points_4d).
Proof.
  intros ->.
  pose proof (transform_rows_split composite points_4d [] []) as H.
  by rewrite !(right_id_L [] (++)) in H.
Qed.

Lemma transform_rows_short composite (points_4d : list vec4) n :
  length points_4d < n →
  for_each (range n) (transform_row composite) points_4d = Raise IndexError.
Proof.
  intros H. unfold range.
  replace n with (length points_4d + S (n - S (length points_4d))) by lia.
  rewrite seq_app, for_each_app.
  fold (range (length points_4d)). rewrite transform_rows by done.
  cbn [mbind outcome_bind Nat.add seq for_each].
  rewrite transform_row_past_end; [done|]. rewrite length_fmap. lia.
Qed.

Lemma zip_replicate {A} (l : list A) (c : Qc) :
  zip l (replicate (length l) c) = (λ x, (x, c)) <$> l.
Proof. induction l as [|x l IH]; [done|]. cbn. by rewrite <- IH. Qed.

Lemma lifted_rows (points_2d : list vec2) :
  np_hstack (np_hstack points_2d (np_zeros (length points_2d)))
            (np_ones (length points_2d))
  = (λ p, (p, 0, 1)%Qc) <$> points_2d.
Proof.
  unfold np_hstack, np_zeros, np_ones.
  rewrite (zip_replicate points_2d).
  assert (length points_2d = length ((λ x : vec2, (x, 0%Qc)) <$> points_2d))
    as E by by rewrite length_fmap.
  rewrite E, zip_replicate.
  by rewrite <- list_fmap_compose.
Qed.

Lemma recentred_rows composite size_x size_y (center : vec2)
    (rows : list vec2) :
  sub3 (np_append center 0%Qc)
    (add3 (size_x * one_half, size_y * one_half, 0)%Qc
       (fst <$> (np_dot composite <$> ((λ p, (p, 0, 1)%Qc) <$> rows))))
  = folded_vertex composite size_x size_y center <$> rows.
Proof.
  unfold sub3, add3. rewrite <- !list_fmap_compose.
  apply list_fmap_ext. intros _ [px py] _.
  destruct center as [cx cy].
  destruct composite
    as [[[[[[? ?] ?] ?] [[[? ?] ?] ?]] [[[? ?] ?] ?]] [[[? ?] ?] ?]].
  reflexivity.
Qed.

(** ** The loop over the faces *)

Lemma append_face_renderable cp face_map size_x size_y i all_polys :
  face_renderable cp face_map i = true →
  append_face cp face_map size_x size_y i all_polys
  = Ok (all_polys ++ [folded_face cp face_map size_x size_y i]).
Proof.
  unfold face_renderable, append_face, folded_face.
  destruct (face_corner_points cp !! i) as [corners|] eqn:Hc; [|done].
  destruct (num_face_corner_points cp !! i) as [count|] eqn:Hn; [|done].
  destruct (face_map !! i) as [composite|] eqn:Hm; [|done].
  destruct (face_centers cp !! fixed_face cp) as [center|] eqn:Hf; [|done].
  intros Hle%bool_decide_eq_true.
  rewrite (index_Some _ _ _ Hc), (index_Some _ _ _ Hn), (index_Some _ _ _ Hm),
    (index_Some _ _ _ Hf).
  cbn [mbind outcome_bind].
  rewrite lifted_rows.
  rewrite transform_rows by (rewrite length_fmap, length_take; lia).
  cbn [mbind outcome_bind].
  by rewrite recentred_rows.
Qed.

Lemma append_face_not_renderable cp face_map size_x size_y i all_polys :
  face_renderable cp face_map i = false →
  append_face cp face_map size_x size_y i all_polys = Raise IndexError.
Proof.
  unfold face_renderable, append_face.
  destruct (face_corner_points cp !! i) as [corners|] eqn:Hc;
    [rewrite (index_Some _ _ _ Hc)|by rewrite (index_None _ _ Hc)].
  destruct (num_face_corner_points cp !! i) as [count|] eqn:Hn;
    [rewrite (index_Some _ _ _ Hn)|by rewrite (index_None _ _ Hn)].
  destruct (face_map !! i) as [composite|] eqn:Hm;
    [rewrite (index_Some _ _ _ Hm)|by rewrite (index_None _ _ Hm)].
  cbn [mbind outcome_bind].
  destruct (face_centers cp !! fixed_face cp) as [center|] eqn:Hf.
  - intros Hgt%bool_decide_eq_false.
    rewrite lifted_rows, transform_rows_short; [done|].
    rewrite length_fmap, length_take. lia.
  - intros _. rewrite (index_None _ _ Hf), lifted_rows.
    destruct (decide (count ≤ length corners)).
    + by rewrite transform_rows by (rewrite length_fmap, length_take; lia).
    + rewrite transform_rows_short; [done|].
      rewrite length_fmap, length_take. lia.
Qed.

Lemma append_faces cp face_map size_x size_y (n : nat) :
  ∀ k all_polys,
    forallb (face_renderable cp face_map) (seq k n) = true →
    for_each (seq k n) (append_face cp face_map size_x size_y) all_polys
    = Ok (all_polys ++ (folded_face cp face_map size_x size_y <$> seq k n)).
Proof.
  induction n as [|n IH]; intros k all_polys H.
  - cbn. by rewrite (right_id_L [] (++)).
  - cbn [seq forallb] in H. apply andb_true_iff in H as [Hk H].
    cbn [seq for_each].
    rewrite append_face_renderable by done.
    cbn [mbind outcome_bind].
    rewrite IH by done.
    by rewrite <- (assoc_L (++)).
Qed.

Lemma append_faces_fail cp face_map size_x size_y (n : nat) :
  ∀ k all_polys,
    forallb (face_renderable cp face_map) (seq k n) = false →
    for_each (seq k n) (append_face cp face_map size_x size_y) all_polys
    = Raise IndexError.
Proof.
  induction n as [|n IH]; intros k all_polys H; [done|].
  cbn [seq forallb] in H. cbn [seq for_each].
  destruct (face_renderable cp face_map k) eqn:Hk.
  - rewrite append_face_renderable by done.
    cbn [mbind outcome_bind]. by apply IH.
  - by rewrite append_face_not_renderable.
Qed.

Lemma renderable_face cp fold_angles i :
  renderable cp fold_angles = true → i < num_faces cp →
  face_renderable cp (compute_folding_map cp fold_angles) i = true.
Proof.
  unfold renderable, range. rewrite forallb_forall. intros H Hi.
  apply H, in_seq. lia.
Qed.

Lemma renderable_lookups cp fold_angles i :
  renderable cp fold_angles = true → i < num_faces cp →
  ∃ corners count composite center,
    face_corner_points cp !! i = Some corners ∧
    num_face_corner_points cp !! i = Some count ∧
    compute_folding_map cp fold_angles !! i = Some composite ∧
    face_centers cp !! fixed_face cp = Some center ∧
    count ≤ length corners.
Proof.
  intros Hr Hi. pose proof (renderable_face _ _ _ Hr Hi) as H.
  unfold face_renderable in H.
  destruct (face_corner_points cp !! i) as [corners|]; [|done].
  destruct (num_face_corner_points cp !! i) as [count|]; [|done].
  destruct (compute_folding_map cp fold_angles !! i) as [composite|]; [|done].
  destruct (face_centers cp !! fixed_face cp) as [center|]; [|done].
  apply bool_decide_eq_true in H. by exists corners, count, composite, center.
Qed.

Lemma same_valid_corners_face cp fold_angles rows i face_map size_x size_y :
  renderable cp fold_angles = true → same_valid_corners cp rows →
  i < num_faces cp →
  face_renderable (with_face_corner_points rows cp)
    (compute_folding_map cp fold_angles) i = true ∧
  folded_face (with_face_corner_points rows cp) face_map size_x size_y i
  = folded_face cp face_map size_x size_y i.
Proof.
  intros Hr Hsame Hi.
  destruct (renderable_lookups _ _ _ Hr Hi)
    as (corners & count & composite & center & Hc & Hn & Hm & Hf & Hle).
  specialize (Hsame i count Hi Hn). rewrite Hc in Hsame.
  unfold face_renderable, folded_face. cbn [with_face_corner_points
    face_corner_points num_face_corner_points face_centers fixed_face].
  rewrite Hn, Hm, Hf, Hc.
  destruct (rows !! i) as [corners'|]; [|done].
  cbn in Hsame. injection Hsame as Hsame. rewrite Hsame. split; [|done].
  apply bool_decide_eq_true.
  apply (f_equal length) in Hsame. rewrite !length_take in Hsame. lia.
Qed.

(** ** Palette positions *)

Lemma Qc_of_nat_lt (i j : nat) : i < j → (Qc_of_nat i < Qc_of_nat j)%Qc.
Proof.
  intros H. unfold Qc_of_nat. apply (proj1 (Z2Qc_inj_lt _ _)). lia.
Qed.

Lemma Qc_of_nat_0 : Qc_of_nat 0 = 0%Qc.
Proof. by apply Qc_is_canon. Qed.

Lemma Qc_of_nat_2 : Qc_of_nat 2 = (1 + 1)%Qc.
Proof. by apply Qc_is_canon. Qed.

Lemma Qc_of_nat_pos (n : nat) : 0 < n → (0 < Qc_of_nat n)%Qc.
Proof. intros H. rewrite <- Qc_of_nat_0. by apply Qc_of_nat_lt. Qed.

Lemma palette_position_linear (n i : nat) :
  0 < n → palette_position n i = (Qc_of_nat i / Qc_of_nat n)%Qc.
Proof.
  intros Hn. unfold palette_position, normalize. cbn [vmin vmax].
  pose proof (Qc_of_nat_pos n Hn) as Hpos.
  rewrite bool_decide_eq_false_2 by by apply Qclt_not_eq.
  f_equal; ring.
Qed.

Lemma palette_position_increasing (n i j : nat) :
  i < j → j < n → (palette_position n i < palette_position n j)%Qc.
Proof.
  intros Hij Hjn. rewrite !palette_position_linear by lia.
  pose proof (Qc_of_nat_pos n ltac:(lia)) as Hpos.
  unfold Qcdiv. apply Qcmult_lt_compat_r; [by apply Qcinv_pos|].
  by apply Qc_of_nat_lt.
Qed.

Lemma palette_position_range (n i : nat) :
  i < n → (0 ≤ palette_position n i)%Qc ∧ (palette_position n i < 1)%Qc.
Proof.
  intros Hin. rewrite palette_position_linear by lia.
  pose proof (Qc_of_nat_pos n ltac:(lia)) as Hpos.
  pose proof (Qcinv_pos _ Hpos) as Hinv.
  assert (Qc_of_nat n ≠ 0%Qc) as Hne by (by apply not_eq_sym, Qclt_not_eq).
  split.
  - unfold Qcdiv. apply Qcmult_nonneg_nonneg; [|by apply Qclt_le_weak].
    rewrite <- Qc_of_nat_0. unfold Qc_of_nat.
    apply (proj1 (Z2Qc_inj_le _ _)). lia.
  - replace 1%Qc with (Qc_of_nat n / Qc_of_nat n)%Qc
      by (unfold Qcdiv; by apply Qcmult_inv_r).
    unfold Qcdiv. apply Qcmult_lt_compat_r; [done|]. by apply Qc_of_nat_lt.
Qed.

Lemma length_face_colors palette n : length (face_colors palette n) = n.
Proof. unfold face_colors, range. by rewrite length_fmap, length_seq. Qed.

Lemma lookup_face_colors palette n i :
  i < n →
  face_colors palette n !! i = Some (rgb_of (palette (palette_position n i))).
Proof.
  intros H. unfold face_colors, range.
  by rewrite list_lookup_fmap, lookup_seq_lt.
Qed.

(** The colours are pairwise distinct exactly when the palette separates
    the positions of the faces. *)
Lemma face_colors_NoDup_iff palette n :
  NoDup (face_colors palette n) ↔
  ∀ i j, i < j → j < n →
    rgb_of (palette (palette_position n i))
    ≠ rgb_of (palette (palette_position n j)).
Proof.
  split.
  - intros Hnodup i j Hij Hj Heq.
    assert (i = j); [|lia].
    eapply (proj1 (NoDup_alt _) Hnodup).
    + by apply lookup_face_colors; lia.
    + rewrite Heq. by apply lookup_face_colors.
  - intros Hsep. unfold face_colors, range.
    apply NoDup_fmap_2_strong; [|apply NoDup_seq].
    intros i j [_ Hi]%elem_of_seq [_ Hj]%elem_of_seq Heq.
    destruct (Nat.lt_total i j) as [Hlt|[->|Hlt]]; [|done|].
    + exfalso. apply (Hsep i j); [done|lia|done].
    + exfalso. apply (Hsep j i); [done|lia|done].
Qed.

(** ** The folded surface *)

Lemma length_folded_verts palette cp fold_angles alpha edges ax :
  length (verts (folded_surface palette cp fold_angles alpha edges ax))
  = num_faces cp.
Proof. cbn. unfold range. by rewrite length_fmap, length_seq. Qed.

Lemma lookup_folded_verts palette cp fold_angles alpha edges ax i :
  i < num_faces cp →
  verts (folded_surface palette cp fold_angles alpha edges ax) !! i
  = Some (folded_face cp (compute_folding_map cp fold_angles)
            (xlim3d ax).2 (ylim3d ax).2 i).
Proof.
  intros H. cbn. unfold range. by rewrite list_lookup_fmap, lookup_seq_lt.
Qed.

Lemma replicate_zeros n : (λ _, 0%Qc) <$> range n = replicate n 0%Qc.
Proof.
  unfold range. generalize 0 as k.
  induction n as [|n IH]; intros k; [done|]. cbn. by rewrite IH.
Qed.

Section folded_surface.

Variable colormaps : string → option Colormap.

(** The name [Error] is bound nowhere. *)
Lemma raise_Error_unbound msg : raise_instance "Error" msg = NameError "Error".
Proof. reflexivity. Qed.

(** The four ways a call of [plot_custom_configuration] can end. *)
Lemma plot_custom_configuration_unregistered cp fold_angles name alpha edges
    ax :
  colormaps name = None →
  plot_custom_configuration colormaps cp fold_angles name alpha edges ax
  = (Raise ValueError, ax).
Proof.
  intros H. unfold plot_custom_configuration, get_cmap. by rewrite H.
Qed.

Lemma plot_custom_configuration_mismatch cp fold_angles name alpha edges ax
    palette :
  colormaps name = Some palette →
  length fold_angles ≠ num_folds cp →
  plot_custom_configuration colormaps cp fold_angles name alpha edges ax
  = (Raise (NameError "Error"), ax).
Proof.
  intros Hp H. unfold plot_custom_configuration, get_cmap. rewrite Hp.
  cbv [mbind py_bind get_xlim3d get_ylim3d gets raise lift].
  destruct (xlim3d ax) as [x0 x1], (ylim3d ax) as [y0 y1].
  by rewrite bool_decide_eq_true_2.
Qed.

Lemma plot_custom_configuration_unfold cp fold_angles name alpha edges ax
    palette :
  colormaps name = Some palette →
  length fold_angles = num_folds cp →
  plot_custom_configuration colormaps cp fold_angles name alpha edges ax
  = match for_each (range (num_faces cp))
            (append_face cp (compute_folding_map cp fold_angles)
               (xlim3d ax).2 (ylim3d ax).2) [] with
    | Ok all_polys =>
        (Ok tt,
         with_collections
           [Polygons
              {| verts := all_polys;
                 facecolor := Some (face_colors palette (num_faces cp));
                 poly_alpha := Some alpha;
                 zsort := zsort_max;
                 edgecolor := if edges then Some "k"%string else None |}] ax)
    | Raise e => (Raise e, with_collections [] ax)
    end.
Proof.
  intros Hp H. unfold plot_custom_configuration, get_cmap. rewrite Hp.
  cbv [mbind py_bind get_xlim3d get_ylim3d gets raise lift modify
       set_collections add_collection3d].
  destruct (xlim3d ax) as [x0 x1] eqn:Hx, (ylim3d ax) as [y0 y1] eqn:Hy.
  rewrite bool_decide_eq_false_2 by (intros ?; contradiction).
  cbn [snd].
  destruct (for_each _ _ _) as [all_polys|e]; [|done].
  unfold with_collections. cbn. rewrite Hx, Hy.
  destruct edges; reflexivity.
Qed.

Lemma plot_custom_configuration_renderable cp fold_angles name alpha edges ax
    palette :
  colormaps name = Some palette →
  length fold_angles = num_folds cp →
  renderable cp fold_angles = true →
  plot_custom_configuration colormaps cp fold_angles name alpha edges ax
  = (Ok tt,
     with_collections
       [Polygons (folded_surface palette cp fold_angles alpha edges ax)] ax).
Proof.
  intros Hp Hlen Hr.
  rewrite (plot_custom_configuration_unfold _ _ _ _ _ _ palette) by done.
  unfold range, renderable in *. by rewrite append_faces by done.
Qed.

Lemma plot_custom_configuration_not_renderable cp fold_angles name alpha edges
    ax palette :
  colormaps name = Some palette →
  length fold_angles = num_folds cp →
  renderable cp fold_angles = false →
  plot_custom_configuration colormaps cp fold_angles name alpha edges ax
  = (Raise IndexError, with_collections [] ax).
Proof.
  intros Hp Hlen Hr.
  rewrite (plot_custom_configuration_unfold _ _ _ _ _ _ palette) by done.
  unfold range, renderable in *. by rewrite append_faces_fail.
Qed.

(** A call returns exactly when the palette is registered, the vector has
    the right length and every face can be drawn. *)
Lemma plot_custom_configuration_Ok cp fold_angles name alpha edges ax ax' :
  plot_custom_configuration colormaps cp fold_angles name alpha edges ax
  = (Ok tt, ax') →
  ∃ palette,
    colormaps name = Some palette ∧
    length fold_angles = num_folds cp ∧ renderable cp fold_angles = true.
Proof.
  intros H.
  destruct (colormaps name) as [palette|] eqn:Hp.
  - exists palette. split; [done|].
    destruct (decide (length fold_angles = num_folds cp)) as [Hlen|Hlen].
    + split; [done|]. destruct (renderable cp fold_angles) eqn:Hr; [done|].
      by rewrite (plot_custom_configuration_not_renderable _ _ _ _ _ _ palette)
        in H.
    + by rewrite (plot_custom_configuration_mismatch _ _ _ _ _ _ palette) in H.
  - by rewrite plot_custom_configuration_unregistered in H.
Qed.

End folded_surface.

(** ** The axis normalizer *)

Lemma py_max3_largest (x y z : Qc) :
  (py_max x [y; z] = x ∨ py_max x [y; z] = y ∨ py_max x [y; z] = z) ∧
  (x ≤ py_max x [y; z])%Qc ∧ (y ≤ py_max x [y; z])%Qc ∧
  (z ≤ py_max x [y; z])%Qc.
Proof.
  unfold py_max, py_gt. cbn [fold_left].
  destruct (bool_decide_reflect (x < y)%Qc) as [Hxy|Hxy];
    [destruct (bool_decide_reflect (y < z)%Qc) as [Hz|Hz]
    |destruct (bool_decide_reflect (x < z)%Qc) as [Hz|Hz]];
    cbn beta iota; (split; [auto|]);
    repeat split;
    eauto using Qcle_refl, Qclt_le_weak, Qcnot_lt_le, Qcle_trans, Qclt_trans.
Qed.

Lemma set_axes_equal_run ax :
  set_axes_equal ax =
  (Ok tt,
   let radius :=
     (one_half * py_max (Qcabs ((xlim3d ax).2 - (xlim3d ax).1))
                   [Qcabs ((ylim3d ax).2 - (ylim3d ax).1);
                    Qcabs ((zlim3d ax).2 - (zlim3d ax).1)])%Qc in
   {| xlim3d := (np_mean (xlim3d ax) - radius, np_mean (xlim3d ax) + radius)%Qc;
      ylim3d := (np_mean (ylim3d ax) - radius, np_mean (ylim3d ax) + radius)%Qc;
      zlim3d := (np_mean (zlim3d ax) - radius, np_mean (zlim3d ax) + radius)%Qc;
      collections := collections ax |}).
Proof. reflexivity. Qed.

(** The mean of two limits is as far from the one as from the other. *)
Lemma np_mean_midpoint (a b : Qc) :
  (np_mean (a, b) - a = b - np_mean (a, b))%Qc.
Proof.
  unfold np_mean. cbn [fst snd]. rewrite Qc_of_nat_2. field. discriminate.
Qed.

(** ** The planar diagram *)

Lemma append_fold_color_sign cp i target cs :
  fold_angle_target cp !! i = Some target →
  append_fold_color cp i cs = Ok (cs ++ [sign_color target]).
Proof.
  intros H. unfold append_fold_color, sign_color.
  rewrite (index_Some _ _ _ H). cbn [mbind outcome_bind].
  destruct (py_lt target 0%Qc); [done|]. cbn [mbind outcome_bind].
  by destruct (py_gt target 0%Qc).
Qed.

Lemma default_colors_split cp (n : nat) :
  ∀ k cs,
    k + n ≤ length (fold_angle_target cp) →
    for_each (seq k n) (append_fold_color cp) cs
    = Ok (cs ++ (sign_color <$> take n (drop k (fold_angle_target cp)))).
Proof.
  induction n as [|n IH]; intros k cs Hle.
  - rewrite take_0. cbn. by rewrite (right_id_L [] (++)).
  - destruct (lookup_lt_is_Some_2 (fold_angle_target cp) k ltac:(lia))
      as [target Ht].
    cbn [seq for_each]. rewrite (append_fold_color_sign _ _ target) by done.
    cbn [mbind outcome_bind]. rewrite IH by lia.
    rewrite (drop_S _ target k) by done. cbn [take fmap list_fmap].
    by rewrite <- (assoc_L (++)).
Qed.

Lemma default_colors cp :
  num_folds cp ≤ length (fold_angle_target cp) →
  for_each (range (num_folds cp)) (append_fold_color cp) []
  = Ok (sign_color <$> take (num_folds cp) (fold_angle_target cp)).
Proof.
  intros H. unfold range. by rewrite default_colors_split by lia.
Qed.

Lemma sign_color_cases (target : Qc) :
  ((target < 0)%Qc → sign_color target = v_color) ∧
  ((0 < target)%Qc → sign_color target = m_color) ∧
  (target = 0%Qc → sign_color target = b_color).
Proof.
  unfold sign_color, py_lt, py_gt. repeat split.
  - intros H. by rewrite bool_decide_eq_true_2.
  - intros H.
    rewrite bool_decide_eq_false_2
      by (apply Qcle_not_lt; by apply Qclt_le_weak).
    by rewrite bool_decide_eq_true_2.
  - intros ->. by rewrite !bool_decide_eq_false_2 by apply (irreflexivity _).
Qed.

Lemma crease_colors_palette colormaps cp name palette :
  name ≠ EmptyString →
  colormaps name = Some palette →
  crease_colors colormaps cp (Some name)
  = Ok (face_colors palette (num_folds cp)).
Proof.
  intros Hn Hp. unfold crease_colors, truthy, get_cmap.
  rewrite bool_decide_eq_true_2 by done. cbn. by rewrite Hp.
Qed.

Lemma crease_colors_Ok colormaps cp name :
  colors_available colormaps cp name →
  ∃ cs, crease_colors colormaps cp name = Ok cs ∧
    (truthy name = false →
     cs = sign_color <$> take (num_folds cp) (fold_angle_target cp)).
Proof.
  unfold colors_available, crease_colors, get_cmap.
  destruct (truthy name).
  - intros [palette ->]. eexists. split; [reflexivity|done].
  - intros H. eexists. split; [by apply default_colors|done].
Qed.

Lemma with_artists_nil ax : with_artists [] ax = ax.
Proof.
  unfold with_artists. rewrite (right_id_L [] (++)). by destruct ax.
Qed.

Lemma with_artists_app l1 l2 ax :
  with_artists l2 (with_artists l1 ax) = with_artists (l1 ++ l2) ax.
Proof. unfold with_artists. cbn. by rewrite (assoc_L (++)). Qed.

Lemma bind_scatter {B} xs ys zorder (k : unit → py Axes2D B) s :
  (scatter xs ys zorder ≫= k) s
  = k tt (autoscale_view (with_artists [Scatter xs ys zorder] s)).
Proof. reflexivity. Qed.

Lemma bind_Ok {S B} (m : py S unit) (k : unit → py S B) s s' :
  m s = (Ok tt, s') → (m ≫= k) s = k tt s'.
Proof. intros H. unfold mbind, py_bind. by rewrite H. Qed.

Lemma bind_Raise {S A B} (m : py S A) (k : A → py S B) s s' e :
  m s = (Raise e, s') → (m ≫= k) s = (Raise e, s').
Proof. intros H. unfold mbind, py_bind. by rewrite H. Qed.

(** A loop whose body adds one artist per item. *)
Lemma for_each_py_add {A} (xs : list A) (body : A → py Axes2D unit)
    (g : A → Artist) :
  (∀ x s, body x s = (Ok tt, with_artists [g x] s)) →
  ∀ s, for_each_py xs body s = (Ok tt, with_artists (g <$> xs) s).
Proof.
  intros Hbody. induction xs as [|x xs IH]; intros s.
  - cbn. by rewrite with_artists_nil.
  - cbn [for_each_py]. rewrite (bind_Ok _ _ _ _ (Hbody x s)), IH.
    by rewrite with_artists_app.
Qed.

(** A loop whose body looks item [i] up in [es] before it adds an artist:
    it stops at the first index past the end of [es]. *)
Lemma for_each_py_indexed {P E} (es : list E)
    (body : nat * P → py Axes2D unit) (g : nat → P → E → Artist) :
  (∀ i p s, body (i, p) s
            = match es !! i with
              | Some e => (Ok tt, with_artists [g i p e] s)
              | None => (Raise IndexError, s)
              end) →
  ∀ (l : list P) k s,
    for_each_py (zip (seq k (length l)) l) body s
    = (if bool_decide (length l ≤ length (drop k es))
       then Ok tt else Raise IndexError,
       with_artists ((λ '(i, p, e), g i p e)
                       <$> zip (zip (seq k (length l)) l) (drop k es)) s).
Proof.
  intros Hbody. induction l as [|p l IH]; intros k s.
  - cbn. rewrite with_artists_nil. by rewrite bool_decide_eq_true_2 by lia.
  - cbn [length seq zip zip_with for_each_py].
    destruct (es !! k) as [e|] eqn:He.
    + rewrite (drop_S _ e k) by done.
      assert (body (k, p) s = (Ok tt, with_artists [g k p e] s)) as Hstep
        by (by rewrite Hbody, He).
      rewrite (bind_Ok _ _ _ _ Hstep), IH.
      cbn [zip zip_with fmap list_fmap length]. rewrite with_artists_app.
      cbn [app]. f_equal. by repeat case_bool_decide; try lia.
    + assert (body (k, p) s = (Raise IndexError, s)) as Hstep
        by (by rewrite Hbody, He).
      rewrite (bind_Raise _ _ _ _ _ Hstep).
      apply lookup_ge_None in He. rewrite drop_ge by done.
      rewrite bool_decide_eq_false_2 by (cbn; lia).
      cbn. by rewrite with_artists_nil.
Qed.

Lemma fold_label_loop cp (body : nat * vec2 → py Axes2D unit) :
  (∀ i p s, body (i, p) s
            = match fold_vector_points cp !! i with
              | Some e => (Ok tt, with_artists [fold_label i p e] s)
              | None => (Raise IndexError, s)
              end) →
  ∀ s, for_each_py (enumerate (line_segment_midpoints cp)) body s
       = (if fold_labels_fit cp then Ok tt else Raise IndexError,
          with_artists (fold_labels cp) s).
Proof.
  intros Hbody s. unfold enumerate.
  rewrite (for_each_py_indexed _ _ _ Hbody _ 0 s). by rewrite drop_0.
Qed.

(** A call that gets past the colours: the lines and the markers are
    drawn, the view follows the data, the aspect is set from the limits
    read then, and the three loops add their labels. *)
Lemma plot_crease_pattern_run colormaps cp name af ar afc ax cs :
  crease_colors colormaps cp name = Ok cs →
  plot_crease_pattern colormaps cp name af ar afc ax
  = diagram_labelled cp af ar afc (diagram_drawn cp cs ax).
Proof.
  intros Hc. unfold plot_crease_pattern.
  match goal with
  | |- context [lift (if truthy name then ?a else ?b)] =>
      change (if truthy name then a else b)
        with (crease_colors colormaps cp name)
  end.
  rewrite Hc, bind_lift_Ok. cbn beta.
  unfold add_collection, get_xlim, get_ylim, set_aspect.
  rewrite bind_add_artist. cbn beta.
  rewrite bind_scatter, with_artists_app. cbn [app].
  change (autoscale_view
            (with_artists
               [Lines {| segments := (λ '(a, b), [a; b])
                                       <$> zip (p1 cp) (p2 cp);
                         colors := cs; linewidths := 1%Qc |};
                Scatter (fst <$> reference_points cp)
                  (snd <$> reference_points cp) 2] ax))
    with (lines_and_markers cp cs ax).
  rewrite bind_gets.
  destruct (xlim (lines_and_markers cp cs ax)) as [xleft xright] eqn:Hx.
  rewrite bind_gets.
  destruct (ylim (lines_and_markers cp cs ax)) as [ybottom ytop] eqn:Hy.
  rewrite bind_modify.
  match goal with
  | |- _ ?s = _ =>
      replace s with (diagram_drawn cp cs ax)
        by (unfold diagram_drawn, with_aspect, box_aspect;
            rewrite Hx, Hy; reflexivity)
  end.
  generalize (diagram_drawn cp cs ax) as s. intros s.
  change ((λ '(a, b), ((a.1 + b.1) * one_half, (a.2 + b.2) * one_half)%Qc)
            <$> zip (p1 cp) (p2 cp)) with (line_segment_midpoints cp).
  assert (∀ (b : bool) s',
            (if b then
               for_each_py (enumerate (reference_points cp))
                 (λ '(i, (x, y)),
                    annotate ("v" +:+ pretty i) (x, y) "offset points"
                      (0, 4)%Z "center" 8 None)
             else mret tt) s'
            = (Ok tt, with_artists (if b then vertex_labels cp else []) s'))
    as Hv.
  { intros [] s'; [|by rewrite with_artists_nil].
    unfold vertex_labels. apply for_each_py_add. by intros [i [x y]] s''. }
  assert (∀ (b : bool) s',
            (if b then
               for_each_py (enumerate (face_centers cp))
                 (λ '(i, (x, y)),
                    annotate ("F" +:+ pretty i) (x, y) "offset points"
                      (0, 0)%Z "center" 8 None)
             else mret tt) s'
            = (Ok tt, with_artists (if b then face_labels cp else []) s'))
    as Hf.
  { intros [] s'; [|by rewrite with_artists_nil].
    unfold face_labels. apply for_each_py_add. by intros [i [x y]] s''. }
  unfold diagram_labelled.
  destruct af.
  - match goal with
    | |- context [for_each_py (enumerate (line_segment_midpoints cp)) ?b] =>
        pose proof (fold_label_loop cp b) as He
    end.
    specialize (He ltac:(intros i [x y] s'; cbv [mbind py_bind lift index];
                         by destruct (fold_vector_points cp !! i)) s).
    destruct (fold_labels_fit cp); cbn [andb negb].
    + rewrite (bind_Ok _ _ _ _ He), (bind_Ok _ _ _ _ (Hv ar _)), Hf.
      by rewrite !with_artists_app, (assoc_L (++)).
    + by rewrite (bind_Raise _ _ _ _ _ He).
  - cbn [andb].
    assert ((mret tt : py Axes2D unit) s = (Ok tt, s)) as Hret by done.
    rewrite (bind_Ok _ _ _ _ Hret), (bind_Ok _ _ _ _ (Hv ar _)), Hf.
    by rewrite !with_artists_app.
Qed.

(** When the colours cannot be computed, nothing has been drawn. *)
Lemma plot_crease_pattern_no_colors colormaps cp name af ar afc ax e :
  crease_colors colormaps cp name = Raise e →
  plot_crease_pattern colormaps cp name af ar afc ax = (Raise e, ax).
Proof.
  intros Hc. unfold plot_crease_pattern.
  match goal with
  | |- context [lift (if truthy name then ?a else ?b)] =>
      change (if truthy name then a else b)
        with (crease_colors colormaps cp name)
  end.
  by rewrite Hc.
Qed.

(** The artists of a call that gets past the colours: those that were
    there, the lines, the markers, and then labels only. *)
Lemma plot_crease_pattern_drawn colormaps cp name af ar afc ax cs :
  crease_colors colormaps cp name = Ok cs →
  ∃ labels,
    (plot_crease_pattern colormaps cp name af ar afc ax).2
    = with_artists labels (diagram_drawn cp cs ax).
Proof.
  intros Hc. rewrite (plot_crease_pattern_run _ _ _ _ _ _ _ _ Hc).
  unfold diagram_labelled. destruct (af && negb (fold_labels_fit cp)).
  - by eexists.
  - by eexists.
Qed.

Lemma length_enumerate {A} (l : list A) : length (enumerate l) = length l.
Proof. unfold enumerate. rewrite length_zip, length_seq. lia. Qed.

Lemma lookup_enumerate {A} (l : list A) j :
  enumerate l !! j = (λ x, (j, x)) <$> l !! j.
Proof.
  unfold enumerate. destruct (l !! j) as [x|] eqn:Hx.
  - apply lookup_zip_Some. split; [|done].
    apply lookup_seq. split; [done|]. by eapply lookup_lt_Some.
  - apply lookup_ge_None. rewrite length_zip, length_seq.
    apply lookup_ge_None in Hx. lia.
Qed.

Lemma length_midpoints cp :
  length (line_segment_midpoints cp) = length (p1 cp) `min` length (p2 cp).
Proof. unfold line_segment_midpoints. by rewrite length_fmap, length_zip. Qed.

Lemma lookup_midpoints cp i (a b : vec2) :
  p1 cp !! i = Some a → p2 cp !! i = Some b →
  line_segment_midpoints cp !! i
  = Some ((a.1 + b.1) * one_half, (a.2 + b.2) * one_half)%Qc.
Proof.
  intros Ha Hb. unfold line_segment_midpoints.
  rewrite list_lookup_fmap. apply fmap_Some. exists (a, b).
  split; [by apply lookup_zip_Some|done].
Qed.

Lemma length_fold_labels cp :
  length (fold_labels cp)
  = length (line_segment_midpoints cp) `min` length (fold_vector_points cp).
Proof.
  unfold fold_labels. by rewrite length_fmap, length_zip, length_enumerate.
Qed.

Lemma lookup_fold_labels cp i (p : vec2) (ends : nat * nat) :
  line_segment_midpoints cp !! i = Some p →
  fold_vector_points cp !! i = Some ends →
  fold_labels cp !! i = Some (fold_label i p ends).
Proof.
  intros Hp He. unfold fold_labels. rewrite list_lookup_fmap.
  assert (enumerate (line_segment_midpoints cp) !! i = Some (i, p)) as Hi
    by (by rewrite lookup_enumerate, Hp).
  apply fmap_Some. exists (i, p, ends).
  split; [by apply lookup_zip_Some|done].
Qed.

Lemma lookup_vertex_labels cp j (p : vec2) :
  reference_points cp !! j = Some p →
  vertex_labels cp !! j = Some (vertex_label j p).
Proof.
  intros H. unfold vertex_labels.
  by rewrite list_lookup_fmap, lookup_enumerate, H.
Qed.

Lemma lookup_face_labels cp j (p : vec2) :
  face_centers cp !! j = Some p →
  face_labels cp !! j = Some (face_label j p).
Proof.
  intros H. unfold face_labels.
  by rewrite list_lookup_fmap, lookup_enumerate, H.
Qed.

Lemma default_colors_fail cp (n : nat) :
  ∀ k cs,
    k ≤ length (fold_angle_target cp) →
    length (fold_angle_target cp) < k + n →
    for_each (seq k n) (append_fold_color cp) cs = Raise IndexError.
Proof.
  induction n as [|n IH]; intros k cs Hk Hn; [lia|].
  cbn [seq for_each].
  destruct (fold_angle_target cp !! k) as [target|] eqn:Ht.
  - rewrite (append_fold_color_sign _ _ target) by done.
    cbn [mbind outcome_bind]. apply IH; [|lia].
    apply lookup_lt_Some in Ht. lia.
  - unfold append_fold_color. by rewrite (index_None _ _ Ht).
Qed.

(** ** The fixed face *)

Lemma folded_vertex_identity size_x size_y (center p : vec2) :
  folded_vertex identity4 size_x size_y center p
  = (p.1 + size_x * one_half - center.1, p.2 + size_y * one_half - center.2,
     0)%Qc.
Proof.
  destruct center as [cx cy], p as [px py]. unfold folded_vertex. cbn.
  repeat apply f_equal2; ring.
Qed.

Lemma folded_vertex_identity_center size_x size_y (center : vec2) :
  folded_vertex identity4 size_x size_y center center
  = (size_x * one_half, size_y * one_half, 0)%Qc.
Proof.
  rewrite folded_vertex_identity. repeat apply f_equal2; try done; ring.
Qed.

Lemma Qc_of_nat_S n : Qc_of_nat (S n) = (Qc_of_nat n + 1)%Qc.
Proof.
  unfold Qc_of_nat, Qc_of_Z. rewrite Nat2Z.inj_succ.
  apply Qc_is_canon. cbn [this Qcplus Q2Qc]. rewrite !Qred_correct.
  unfold Qeq. cbn. lia.
Qed.

Lemma Qc_sum_shift (l : list Qc) (a : Qc) :
  foldr Qcplus 0%Qc ((λ x, x + a)%Qc <$> l)
  = (foldr Qcplus 0%Qc l + Qc_of_nat (length l) * a)%Qc.
Proof.
  induction l as [|x l IH].
  - cbn. rewrite Qc_of_nat_0. ring.
  - cbn [fmap list_fmap foldr length]. rewrite IH, Qc_of_nat_S. ring.
Qed.

Lemma Qc_sum_zeros {A} (l : list A) :
  foldr Qcplus 0%Qc ((λ _, 0%Qc) <$> l) = 0%Qc.
Proof. induction l as [|x l IH]; [done|]. cbn. rewrite IH. ring. Qed.

(** Moving every point of a flat polygon by the same vector moves its
    centroid by that vector. *)
Lemma centroid3_translated (points : list vec2) (a b : Qc) :
  0 < length points →
  centroid3 ((λ p : vec2, (p.1 + a, p.2 + b, 0)%Qc) <$> points)
  = ((centroid points).1 + a, (centroid points).2 + b, 0)%Qc.
Proof.
  intros Hn. pose proof (Qc_of_nat_pos _ Hn) as Hpos.
  assert (Qc_of_nat (length points) ≠ 0%Qc) as Hne
    by (intros E; by apply (Qclt_not_eq _ _ Hpos)).
  unfold centroid3, centroid. rewrite length_fmap, <- !list_fmap_compose.
  cbn [fst snd].
  replace (foldr Qcplus 0%Qc
             ((λ p : vec3, p.1.1) ∘ (λ p : vec2, (p.1 + a, p.2 + b, 0)%Qc)
                <$> points))
    with (foldr Qcplus 0%Qc ((λ x, x + a)%Qc <$> (fst <$> points)))
    by (by rewrite <- list_fmap_compose).
  replace (foldr Qcplus 0%Qc
             ((λ p : vec3, p.1.2) ∘ (λ p : vec2, (p.1 + a, p.2 + b, 0)%Qc)
                <$> points))
    with (foldr Qcplus 0%Qc ((λ x, x + b)%Qc <$> (snd <$> points)))
    by (by rewrite <- list_fmap_compose).
  replace (foldr Qcplus 0%Qc
             ((λ p : vec3, p.2) ∘ (λ p : vec2, (p.1 + a, p.2 + b, 0)%Qc)
                <$> points))
    with (foldr Qcplus 0%Qc ((λ _, 0%Qc) <$> points)) by done.
  rewrite !Qc_sum_shift, Qc_sum_zeros, !length_fmap.
  unfold vec2 in *.
  apply (f_equal2 pair); [apply (f_equal2 pair)|]; by field.
Qed.

(** ** The aspect *)

(** Under the aspect that the planar diagram sets, the extent of y is drawn
    as long as the extent of x. *)
Lemma square_box (xl yl : Qc * Qc) :
  yl.1 ≠ yl.2 →
  (Qcabs ((xl.2 - xl.1) / (yl.1 - yl.2)) * 1 * Qcabs (yl.2 - yl.1))%Qc
  = Qcabs (xl.2 - xl.1).
Proof.
  intros Hy.
  assert (yl.1 - yl.2 ≠ 0)%Qc as Hne.
  { intros E. apply Hy. rewrite <- (Qcplus_0_l yl.2), <- E. ring. }
  rewrite Qcmult_1_r, <- Qcabs_Qcmult, <- (Qcabs_opp (xl.2 - xl.1)).
  f_equal. by field.
Qed.

Lemma artists_drawn_lines cp cs labels ax :
  artists (with_artists labels (diagram_drawn cp cs ax)) !! length (artists ax)
  = Some (crease_lines cp cs).
Proof.
  cbn [artists with_artists diagram_drawn with_aspect lines_and_markers
       autoscale_view].
  rewrite <- !(assoc_L (++)). by apply list_lookup_middle.
Qed.

(** ** The functions at work *)

(** A strip of two faces folded flat: the second face comes to lie on the
    first, and both are moved so that the centre of the first is at the
    centre (2, 1) of the drawing. *)
Example folded_strip_polygons :
  verts (folded_surface gray (accordion 1) [one_half] 1%Qc false blank_axes3d)
  = [ [(Q2Qc (3 # 2), Q2Qc (1 # 2), 0%Qc); (Q2Qc (5 # 2), Q2Qc (1 # 2), 0%Qc);
       (Q2Qc (5 # 2), Q2Qc (3 # 2), 0%Qc); (Q2Qc (3 # 2), Q2Qc (3 # 2), 0%Qc)];
      [(Q2Qc (5 # 2), Q2Qc (1 # 2), 0%Qc); (Q2Qc (3 # 2), Q2Qc (1 # 2), 0%Qc);
       (Q2Qc (3 # 2), Q2Qc (3 # 2), 0%Qc); (Q2Qc (5 # 2), Q2Qc (3 # 2), 0%Qc)] ].
Proof. vm_compute. qc_eq. Qed.

(** A pattern that lost its corner rows: the call raises at the first face,
    after it has emptied the collections of the axes. *)
Example render_without_corner_rows :
  plot_custom_configuration example_cmaps
    (with_face_corner_points [] (accordion 1)) [one_half] "terrain" 1%Qc false
    (with_collections [OtherCollection "markers"] blank_axes3d)
  = (Raise IndexError, blank_axes3d).
Proof. reflexivity. Qed.

(** A palette name that is not registered: the call raises before it has
    looked at the fold angles. *)
Example render_with_unknown_palette :
  plot_custom_configuration example_cmaps (accordion 5) [0; one_half; 0]%Qc
    "no_such_map" 1%Qc false blank_axes3d
  = (Raise ValueError, blank_axes3d).
Proof. reflexivity. Qed.

(** The label of the first fold of a strip. *)
Example first_fold_label :
  ∃ a,
    artists (plot_crease_pattern example_cmaps (accordion 3) None true false
               false blank_axes2d).2 !! 2 = Some (Text a) ∧
    text a = "e0" +:+ newline +:+ "2-3" ∧ xytext a = (0, 0)%Z.
Proof. eexists. repeat split; reflexivity. Qed.

(** * The claims *)

(** C1, where the code departs from the claim.  Three angles are supplied
    for a pattern of five folds.  The call does stop at the length check,
    and the axes are as they were before the call: the collection that was
    attached is still there, nothing was cleared, attached or drawn.  But
    the exception is not the invalid-input error with the message "Invalid
    number of fold angles": the name [Error] is bound nowhere in the module,
    so the call ends in a [NameError] for that name. *)
Theorem three_angles_for_five_folds :
  let ax := with_collections [OtherCollection "markers"] blank_axes3d in
  plot_custom_configuration example_cmaps (accordion 5) [0; one_half; 0]%Qc
    default_color_map_name default_alpha default_edges ax
  = (Raise (NameError "Error"), ax).
Proof.
  intros ax. by apply (plot_custom_configuration_mismatch _ _ _ _ _ _ _ gray).
Qed.

(** C2.  When the crease pattern keeps its fixed face stationary, then for
    every fold-angle vector of length [num_folds] with which the faces can
    be drawn, the render returns, and the polygon it attaches for the fixed
    face is the face's valid corners sent through the map "lift to z = 0,
    multiply by the matrix of the fixed face, translate by half the drawing
    width and height minus the lifted centre of the fixed face".  That map
    sends the centre of the fixed face to exactly (half width, half
    height, 0).  Every vertex drawn for the fixed face lies relative to that
    point as its corner lies relative to the centre; and when the centre is
    the centroid of the valid corners, the centroid of the drawn polygon is
    (half width, half height, 0). *)
Theorem fixed_face_centroid_at_center (colormaps : string → option Colormap)
    cp fold_angles name alpha edges ax palette :
  fixed_face_stationary cp →
  colormaps name = Some palette →
  length fold_angles = num_folds cp →
  renderable cp fold_angles = true →
  fixed_face cp < num_faces cp →
  let half_drawing_width := ((xlim3d ax).2 * one_half)%Qc in
  let half_drawing_height := ((ylim3d ax).2 * one_half)%Qc in
  ∃ pc corners count composite center poly,
    plot_custom_configuration colormaps cp fold_angles name alpha edges ax
    = (Ok tt, with_collections [Polygons pc] ax) ∧
    face_corner_points cp !! fixed_face cp = Some corners ∧
    num_face_corner_points cp !! fixed_face cp = Some count ∧
    compute_folding_map cp fold_angles !! fixed_face cp = Some composite ∧
    face_centers cp !! fixed_face cp = Some center ∧
    verts pc !! fixed_face cp = Some poly ∧
    poly = folded_vertex composite (xlim3d ax).2 (ylim3d ax).2 center
             <$> take count corners ∧
    folded_vertex composite (xlim3d ax).2 (ylim3d ax).2 center center
    = (half_drawing_width, half_drawing_height, 0%Qc) ∧
    (∀ j (p : vec2), take count corners !! j = Some p →
       poly !! j
       = Some (half_drawing_width + (p.1 - center.1),
               half_drawing_height + (p.2 - center.2), 0)%Qc) ∧
    (0 < count → center = centroid (take count corners) →
     centroid3 poly = (half_drawing_width, half_drawing_height, 0%Qc)).
Proof.
  intros Hfixed Hp Hlen Hr Hi hw hh.
  destruct (renderable_lookups _ _ _ Hr Hi)
    as (corners & count & composite & center & Hc & Hn & Hm & Hf & Hle).
  rewrite (Hfixed _ Hlen) in Hm. injection Hm as <-.
  exists (folded_surface palette cp fold_angles alpha edges ax),
         corners, count, identity4, center,
         (folded_vertex identity4 (xlim3d ax).2 (ylim3d ax).2 center
            <$> take count corners).
  split; [by apply plot_custom_configuration_renderable|].
  do 2 (split; [done|]). split; [by apply Hfixed|]. split; [done|].
  split.
  { rewrite lookup_folded_verts by done. unfold folded_face.
    by rewrite Hc, Hn, (Hfixed _ Hlen), Hf. }
  split; [done|].
  split; [apply folded_vertex_identity_center|].
  split.
  - intros j p Hj. rewrite list_lookup_fmap, Hj. cbn [fmap option_fmap option_map].
    f_equal. rewrite folded_vertex_identity. subst hw hh.
    apply (f_equal2 pair); [apply (f_equal2 pair)|]; try done; ring.
  - intros Hcount Hcentre.
    rewrite (list_fmap_ext _
               (λ p : vec2,
                  (p.1 + (hw - center.1), p.2 + (hh - center.2), 0)%Qc)
               (take count corners)).
    2: { intros ? p _. rewrite folded_vertex_identity. subst hw hh.
         apply (f_equal2 pair); [apply (f_equal2 pair)|]; try done; ring. }
    rewrite centroid3_translated by (rewrite length_take; lia).
    rewrite <- Hcentre.
    apply (f_equal2 pair); [apply (f_equal2 pair)|]; try done; ring.
Qed.

Lemma fixed_face_centroid_at_center_witness :
  ∃ pc poly,
    plot_custom_configuration example_cmaps (accordion 2) [0; one_half]%Qc
      "terrain" 1%Qc false blank_axes3d
    = (Ok tt, with_collections [Polygons pc] blank_axes3d) ∧
    verts pc !! 0 = Some poly ∧
    centroid3 poly = (Qc_of_nat 4 * one_half, Qc_of_nat 2 * one_half, 0)%Qc.
Proof.
  destruct (fixed_face_centroid_at_center example_cmaps (accordion 2)
              [0; one_half]%Qc "terrain" 1%Qc false blank_axes3d gray)
    as (pc & corners & count & composite & center & poly & Hrun & Hc & Hn & _
        & Hf & Hpoly & _ & _ & _ & Hcentroid).
  - intros angles _. destruct angles; reflexivity.
  - reflexivity.
  - reflexivity.
  - reflexivity.
  - simpl. lia.
  - exists pc, poly. split; [exact Hrun|]. split; [exact Hpoly|].
    vm_compute in Hc, Hn, Hf.
    injection Hc as <-. injection Hn as <-. injection Hf as <-.
    apply Hcentroid; [lia|]. vm_compute. qc_eq.
Defined.

(** C3.  For every crease pattern and every axes, the reference renderer
    ends exactly as the folded-surface renderer does on [num_folds] zeros
    with the default palette "terrain", alpha 1.0 and no edges: the same
    outcome and the same axes afterwards, hence the same polygons and the
    same colours. *)
Theorem reference_is_custom_with_zeros
    (colormaps : string → option Colormap) cp ax :
  plot_reference_configuration colormaps cp ax
  = plot_custom_configuration colormaps cp (zeros (num_folds cp))
      "terrain" 1%Qc false ax.
Proof.
  unfold plot_reference_configuration, zeros. by rewrite replicate_zeros.
Qed.

(** C4 fails as stated: the colours of the faces need not be distinct.
    With a palette backed by a table of two colours, the first two of the
    three faces of a strip get the same colour. *)
Lemma two_tone_faces_share_a_colour :
  ∃ ax' pc cs,
    plot_custom_configuration example_cmaps (accordion 2) [0; 0]%Qc
      "two_tone" 1%Qc false blank_axes3d = (Ok tt, ax') ∧
    collections ax' = [Polygons pc] ∧
    length (verts pc) = 3 ∧
    facecolor pc = Some cs ∧
    ¬ NoDup cs.
Proof.
  eexists _, _, _.
  rewrite (plot_custom_configuration_renderable _ _ _ _ _ _ _ two_tone)
    by reflexivity.
  split; [reflexivity|]. split; [reflexivity|]. split; [reflexivity|].
  split; [reflexivity|].
  intros Hnodup. vm_compute in Hnodup.
  apply NoDup_cons in Hnodup as [Hnotin _]. apply Hnotin. left.
Qed.

(** C4, amended.  For every fold-angle vector of length [num_folds] on a
    pattern whose faces can all be drawn, the render attaches exactly
    [num_faces] polygons, polygon [i] being face [i], and gives polygon [i]
    the colour of the palette at position [i / num_faces].  These positions
    increase strictly with the face index.  The colours are pairwise
    distinct exactly when the palette has different colours at any two of
    these positions. *)
Theorem face_colours_follow_palette (colormaps : string → option Colormap)
    cp fold_angles name alpha edges ax palette :
  colormaps name = Some palette →
  length fold_angles = num_folds cp →
  renderable cp fold_angles = true →
  ∃ pc cs,
    plot_custom_configuration colormaps cp fold_angles name alpha edges ax
    = (Ok tt, with_collections [Polygons pc] ax) ∧
    length (verts pc) = num_faces cp ∧
    (∀ i, i < num_faces cp →
       verts pc !! i
       = Some (folded_face cp (compute_folding_map cp fold_angles)
                 (xlim3d ax).2 (ylim3d ax).2 i)) ∧
    facecolor pc = Some cs ∧
    length cs = num_faces cp ∧
    (∀ i, i < num_faces cp →
       cs !! i
       = Some (rgb_of (palette
                         (Qc_of_nat i / Qc_of_nat (num_faces cp))%Qc))) ∧
    (∀ i j, i < j → j < num_faces cp →
       (Qc_of_nat i / Qc_of_nat (num_faces cp)
        < Qc_of_nat j / Qc_of_nat (num_faces cp))%Qc) ∧
    (NoDup cs ↔
     ∀ i j, i < j → j < num_faces cp →
       rgb_of (palette (Qc_of_nat i / Qc_of_nat (num_faces cp))%Qc)
       ≠ rgb_of (palette (Qc_of_nat j / Qc_of_nat (num_faces cp))%Qc)).
Proof.
  intros Hp Hlen Hr.
  exists (folded_surface palette cp fold_angles alpha edges ax),
         (face_colors palette (num_faces cp)).
  split; [by apply plot_custom_configuration_renderable|].
  split; [apply length_folded_verts|].
  split; [intros i Hi; by apply lookup_folded_verts|].
  split; [done|].
  split; [apply length_face_colors|].
  split; [|split].
  - intros i Hi. rewrite lookup_face_colors by done.
    by rewrite palette_position_linear by lia.
  - intros i j Hij Hj. rewrite <- !palette_position_linear by lia.
    by apply palette_position_increasing.
  - rewrite face_colors_NoDup_iff.
    split; intros H i j Hij Hj; specialize (H i j Hij Hj).
    + by rewrite <- !palette_position_linear by lia.
    + by rewrite !palette_position_linear by lia.
Qed.

Lemma face_colours_follow_palette_witness :
  ∃ pc cs,
    plot_custom_configuration example_cmaps (accordion 1) [one_half]
      "two_tone" 1%Qc true blank_axes3d
    = (Ok tt, with_collections [Polygons pc] blank_axes3d) ∧
    length (verts pc) = 2 ∧ facecolor pc = Some cs ∧ length cs = 2 ∧
    NoDup cs.
Proof.
  destruct (face_colours_follow_palette example_cmaps (accordion 1)
              [one_half] "two_tone" 1%Qc true blank_axes3d two_tone
              eq_refl eq_refl eq_refl)
    as (pc & cs & Hrun & Hn & _ & Hcs & Hlen & _ & _ & Hdistinct).
  exists pc, cs. do 4 (split; [done|]).
  apply Hdistinct. intros i j Hij Hj.
  assert (i = 0 ∧ j = 1) as [-> ->] by (simpl in Hj; lia).
  vm_compute. discriminate.
Defined.

(** C5 fails as stated: the call changes more than the polygon
    collections.  A collection of another kind that was attached to the
    axes is gone after a successful render. *)
Lemma render_drops_other_collections :
  let ax := with_collections [OtherCollection "markers"] blank_axes3d in
  ∃ ax',
    plot_custom_configuration example_cmaps (accordion 1) [0%Qc]
      "terrain" 1%Qc false ax = (Ok tt, ax') ∧
    other_collections ax = [OtherCollection "markers"] ∧
    other_collections ax' = [].
Proof.
  intros ax. eexists.
  rewrite (plot_custom_configuration_renderable _ _ _ _ _ _ _ gray)
    by reflexivity.
  split; [reflexivity|]. split; reflexivity.
Qed.

(** C5, amended.  A successful render removes every collection that was
    attached to the axes, of whatever kind, and attaches one polygon
    collection, its own; the three axis limits are unchanged.  So after two
    successful renders in succession the axes hold exactly one collection,
    the output of the second call, which is what that call attaches to the
    axes as they were before the first. *)
Theorem render_replaces_every_collection
    (colormaps : string → option Colormap)
    cp fold_angles name alpha edges ax ax' :
  plot_custom_configuration colormaps cp fold_angles name alpha edges ax
  = (Ok tt, ax') →
  ∃ palette,
    colormaps name = Some palette ∧
    collections ax'
    = [Polygons (folded_surface palette cp fold_angles alpha edges ax)] ∧
    xlim3d ax' = xlim3d ax ∧ ylim3d ax' = ylim3d ax ∧
    zlim3d ax' = zlim3d ax ∧
    ∀ cp2 fold_angles2 name2 alpha2 edges2 ax'',
      plot_custom_configuration colormaps cp2 fold_angles2 name2 alpha2 edges2
        ax'
      = (Ok tt, ax'') →
      ∃ palette2,
        colormaps name2 = Some palette2 ∧
        collections ax''
        = [Polygons (folded_surface palette2 cp2 fold_angles2 alpha2
                       edges2 ax)] ∧
        xlim3d ax'' = xlim3d ax ∧ ylim3d ax'' = ylim3d ax ∧
        zlim3d ax'' = zlim3d ax.
Proof.
  intros Hrun.
  destruct (plot_custom_configuration_Ok _ _ _ _ _ _ _ _ Hrun)
    as (palette & Hp & Hlen & Hr).
  rewrite (plot_custom_configuration_renderable _ _ _ _ _ _ _ _ Hp) in Hrun
    by done.
  injection Hrun as <-. exists palette. do 5 (split; [done|]).
  intros cp2 fold_angles2 name2 alpha2 edges2 ax'' Hrun2.
  destruct (plot_custom_configuration_Ok _ _ _ _ _ _ _ _ Hrun2)
    as (palette2 & Hp2 & Hlen2 & Hr2).
  rewrite (plot_custom_configuration_renderable _ _ _ _ _ _ _ _ Hp2) in Hrun2
    by done.
  injection Hrun2 as <-. exists palette2. repeat split; done.
Qed.

Lemma render_replaces_every_collection_witness :
  let ax := with_collections [OtherCollection "markers"] blank_axes3d in
  ∃ ax',
    plot_custom_configuration example_cmaps (accordion 1) [one_half]
      "terrain" 1%Qc false ax = (Ok tt, ax') ∧
    collections ax'
    = [Polygons (folded_surface gray (accordion 1) [one_half] 1%Qc false ax)] ∧
    xlim3d ax' = xlim3d ax.
Proof.
  intros ax.
  pose proof (plot_custom_configuration_renderable example_cmaps (accordion 1)
                [one_half] "terrain" 1%Qc false ax gray eq_refl eq_refl
                eq_refl) as Hrun.
  eexists. split; [exact Hrun|].
  destruct (render_replaces_every_collection _ _ _ _ _ _ _ _ Hrun)
    as (palette & Hp & Hc & Hx & _).
  injection Hp as <-. by split.
Defined.

(** C6.  In the default colour mode (no palette name, or an empty one), on
    a pattern with a target angle for every fold, the line collection that
    the planar diagram attaches has one colour per fold, and the colour of
    fold [i] follows the sign of [fold_angle_target[i]] with no tolerance:
    below zero the valley colour (0, 0, 1), above zero the mountain colour
    (1, 0, 0), exactly zero the border colour (0, 0, 0). *)
Theorem default_colours_follow_sign (colormaps : string → option Colormap)
    cp name annotate_folds annotate_reference_points annotate_faces ax :
  truthy name = false →
  num_folds cp ≤ length (fold_angle_target cp) →
  ∃ lc,
    artists (plot_crease_pattern colormaps cp name annotate_folds
               annotate_reference_points annotate_faces ax).2
      !! length (artists ax) = Some (Lines lc) ∧
    length (colors lc) = num_folds cp ∧
    ∀ i, i < num_folds cp →
      ∃ target, fold_angle_target cp !! i = Some target ∧
        ((target < 0)%Qc → colors lc !! i = Some v_color) ∧
        ((0 < target)%Qc → colors lc !! i = Some m_color) ∧
        (target = 0%Qc → colors lc !! i = Some b_color).
Proof.
  intros Hdefault Hlen.
  destruct (crease_colors_Ok colormaps cp name) as (cs & Hcs & Hsign).
  { unfold colors_available. by rewrite Hdefault. }
  specialize (Hsign Hdefault).
  destruct (plot_crease_pattern_drawn colormaps cp name annotate_folds
              annotate_reference_points annotate_faces ax cs Hcs)
    as [labels ->].
  eexists. split; [|split].
  - apply artists_drawn_lines.
  - cbn [colors]. rewrite Hsign, length_fmap, length_take. lia.
  - intros i Hi.
    destruct (lookup_lt_is_Some_2 (fold_angle_target cp) i ltac:(lia))
      as [target Ht].
    exists target. split; [done|]. cbn [colors].
    rewrite Hsign, list_lookup_fmap, lookup_take_lt, Ht by done.
    cbn [fmap option_fmap option_map].
    destruct (sign_color_cases target) as (Hv & Hm & Hb).
    repeat split; intros H; f_equal; auto.
Qed.

Lemma default_colours_follow_sign_witness :
  ∃ lc,
    artists (plot_crease_pattern example_cmaps (accordion 3) None true true
               true blank_axes2d).2 !! 0 = Some (Lines lc) ∧
    colors lc !! 0 = Some v_color ∧
    colors lc !! 1 = Some m_color ∧
    colors lc !! 2 = Some b_color.
Proof.
  destruct (default_colours_follow_sign example_cmaps (accordion 3) None true
              true true blank_axes2d eq_refl)
    as (lc & Hlc & _ & Hsign).
  - vm_compute. lia.
  - exists lc. split; [exact Hlc|].
    destruct (Hsign 0) as (t0 & Ht0 & Hv & _ & _); [simpl; lia|].
    destruct (Hsign 1) as (t1 & Ht1 & _ & Hm & _); [simpl; lia|].
    destruct (Hsign 2) as (t2 & Ht2 & _ & _ & Hb); [simpl; lia|].
    vm_compute in Ht0, Ht1, Ht2.
    injection Ht0 as <-. injection Ht1 as <-. injection Ht2 as <-.
    split; [apply Hv; reflexivity|].
    split; [apply Hm; reflexivity|].
    apply Hb. by apply Qc_is_canon.
Defined.

(** C7.  On every 3D axes the normalizer returns, leaves the collections
    alone, and sets each axis to [middle - r, middle + r], where [middle]
    is the mean of the axis's two limits (as far from the one as from the
    other) and [r] is 0.5 times the largest of the three spans
    [abs (upper - lower)].  For the extents x = [-1, 1], y = [-5, 5],
    z = [0, 2] the limits become [0 - 5, 0 + 5], [0 - 5, 0 + 5] and
    [1 - 5, 1 + 5]. *)
Theorem set_axes_equal_cubic_limits :
  (∀ ax : Axes3D,
     let x_range := Qcabs ((xlim3d ax).2 - (xlim3d ax).1) in
     let y_range := Qcabs ((ylim3d ax).2 - (ylim3d ax).1) in
     let z_range := Qcabs ((zlim3d ax).2 - (zlim3d ax).1) in
     ∃ largest : Qc,
       (largest = x_range ∨ largest = y_range ∨ largest = z_range) ∧
       (x_range ≤ largest)%Qc ∧ (y_range ≤ largest)%Qc ∧
       (z_range ≤ largest)%Qc ∧
       set_axes_equal ax =
       (Ok tt,
        {| xlim3d := (np_mean (xlim3d ax) - one_half * largest,
                      np_mean (xlim3d ax) + one_half * largest)%Qc;
           ylim3d := (np_mean (ylim3d ax) - one_half * largest,
                      np_mean (ylim3d ax) + one_half * largest)%Qc;
           zlim3d := (np_mean (zlim3d ax) - one_half * largest,
                      np_mean (zlim3d ax) + one_half * largest)%Qc;
           collections := collections ax |})) ∧
  (∀ a b : Qc, (np_mean (a, b) - a = b - np_mean (a, b))%Qc) ∧
  (∀ cs : list Collection,
     set_axes_equal (axes3d_of (-1, 1)%Z (-5, 5)%Z (0, 2)%Z cs)
     = (Ok tt,
        axes3d_of (0 - 5, 0 + 5)%Z (0 - 5, 0 + 5)%Z (1 - 5, 1 + 5)%Z cs)).
Proof.
  split; [|split].
  - intros ax x_range y_range z_range.
    exists (py_max x_range [y_range; z_range]).
    destruct (py_max3_largest x_range y_range z_range) as (Hin & Hx & Hy & Hz).
    repeat split; done.
  - apply np_mean_midpoint.
  - intros cs. rewrite set_axes_equal_run. unfold axes3d_of. qc_eq.
Qed.

(** C8 fails as stated: the aspect that the planar diagram sets does not
    make one data unit along x as long as one data unit along y.  A sheet
    of 2 by 1 is drawn on a new axes: the view follows the data, to the
    limits [-0.1, 2.1] and [-0.05, 1.05], and the call sets the aspect to
    2.  It sets the aspect to 2 also on an axes whose limits the caller has
    set to the 2 by 1 of the sheet. *)
Lemma two_by_one_sheet_units_differ :
  let run := plot_crease_pattern example_cmaps (accordion 1) None true true
               true new_axes2d in
  let run' := plot_crease_pattern example_cmaps (accordion 1) None true true
                true blank_axes2d in
  run.1 = Ok tt ∧
  xlim run.2 = (Q2Qc (-1 # 10), Q2Qc (21 # 10)) ∧
  ylim run.2 = (Q2Qc (-1 # 20), Q2Qc (21 # 20)) ∧
  aspect run.2 = aspect_ratio (Qc_of_nat 2) ∧
  ¬ equal_data_units run.2 ∧
  run'.1 = Ok tt ∧
  aspect run'.2 = aspect_ratio (Qc_of_nat 2) ∧
  ¬ equal_data_units run'.2.
Proof.
  intros run run'.
  split; [reflexivity|]. split; [vm_compute; qc_eq|].
  split; [vm_compute; qc_eq|]. split; [vm_compute; qc_eq|].
  split; [unfold equal_data_units; vm_compute; discriminate|].
  split; [reflexivity|]. split; [vm_compute; qc_eq|].
  unfold equal_data_units. vm_compute. discriminate.
Qed.

(** C8, amended.  Every call of the planar diagram that gets to drawing,
    with a registered palette name or else on a pattern with a target
    angle for every fold, sets the aspect of the axes to
    [abs ((xright - xleft) / (ybottom - ytop)) * 1.0], whatever the aspect
    was before.  The limits in this quotient are those that the axes have
    once the lines and the markers are on them: on an axis that autoscales
    they have followed the data, on an axis whose limits the caller has set
    they are the caller's; they are the limits of the axes after the call.
    With this aspect the extent of x and the extent of y are drawn at the
    same length, and one data unit along x is as long as one along y only
    when that quotient has absolute value 1. *)
Theorem aspect_is_extent_ratio (colormaps : string → option Colormap) cp name
    annotate_folds annotate_reference_points annotate_faces ax :
  colors_available colormaps cp name →
  let ax' := (plot_crease_pattern colormaps cp name annotate_folds
                annotate_reference_points annotate_faces ax).2 in
  let quotient :=
    (((xlim ax').2 - (xlim ax').1) / ((ylim ax').1 - (ylim ax').2))%Qc in
  ∃ cs,
    crease_colors colormaps cp name = Ok cs ∧
    aspect ax' = aspect_ratio (Qcabs quotient * 1)%Qc ∧
    xlim ax'
    = (if autoscalex_on ax
       then (autoscaled ax
               (artists ax ++ [crease_lines cp cs; crease_markers cp])).1
       else xlim ax) ∧
    ylim ax'
    = (if autoscaley_on ax
       then (autoscaled ax
               (artists ax ++ [crease_lines cp cs; crease_markers cp])).2
       else ylim ax) ∧
    ((ylim ax').1 ≠ (ylim ax').2 → drawn_height ax' = Some (drawn_width ax')) ∧
    (equal_data_units ax' ↔ Qcabs quotient = 1%Qc).
Proof.
  intros Hlen ax' quotient.
  destruct (crease_colors_Ok colormaps cp name Hlen) as (cs & Hcs & _).
  destruct (plot_crease_pattern_drawn colormaps cp name annotate_folds
              annotate_reference_points annotate_faces ax cs Hcs)
    as [labels E].
  exists cs. split; [done|].
  subst quotient ax'. rewrite E.
  cbn [aspect xlim ylim with_artists diagram_drawn with_aspect].
  split; [done|]. split; [done|]. split; [done|].
  split.
  - intros Hy. unfold drawn_height, drawn_width.
    cbn [aspect xlim ylim with_artists diagram_drawn with_aspect].
    f_equal. unfold box_aspect. by apply square_box.
  - unfold equal_data_units.
    cbn [aspect xlim ylim with_artists diagram_drawn with_aspect].
    unfold box_aspect. rewrite Qcmult_1_r. split; [|by intros ->].
    intros H.
    by apply (f_equal (λ a, match a with
                            | aspect_ratio r => r
                            | aspect_auto => 0%Qc
                            end)) in H.
Qed.

Lemma aspect_is_extent_ratio_witness :
  let ax' := (plot_crease_pattern example_cmaps (accordion 3)
                (Some "two_tone") true true true new_axes2d).2 in
  aspect ax'
  = aspect_ratio
      (Qcabs (((xlim ax').2 - (xlim ax').1) / ((ylim ax').1 - (ylim ax').2))
       * 1)%Qc ∧
  drawn_height ax' = Some (drawn_width ax').
Proof.
  intros ax'.
  destruct (aspect_is_extent_ratio example_cmaps (accordion 3)
              (Some "two_tone") true true true new_axes2d)
    as (cs & _ & Haspect & _ & _ & Hbox & _).
  - simpl. by eexists.
  - split; [exact Haspect|]. apply Hbox. vm_compute. discriminate.
Defined.

(** C9.  For every fold-angle vector of length [num_folds] on a pattern
    whose faces can all be drawn, the render attaches a single collection,
    which holds the [num_faces] transformed polygons in face order and whose
    depth-sort mode is "max". *)
Theorem faces_in_one_max_sorted_collection
    (colormaps : string → option Colormap)
    cp fold_angles name alpha edges ax palette :
  colormaps name = Some palette →
  length fold_angles = num_folds cp →
  renderable cp fold_angles = true →
  ∃ ax' pc,
    plot_custom_configuration colormaps cp fold_angles name alpha edges ax
    = (Ok tt, ax') ∧
    collections ax' = [Polygons pc] ∧
    verts pc
    = folded_face cp (compute_folding_map cp fold_angles)
        (xlim3d ax).2 (ylim3d ax).2 <$> range (num_faces cp) ∧
    length (verts pc) = num_faces cp ∧
    zsort pc = zsort_max.
Proof.
  intros Hp Hlen Hr. eexists _, _.
  split; [by apply (plot_custom_configuration_renderable _ _ _ _ _ _ _ palette)|].
  split; [reflexivity|]. split; [reflexivity|].
  split; [apply length_folded_verts|reflexivity].
Qed.

Lemma faces_in_one_max_sorted_collection_witness :
  ∃ ax' pc,
    plot_custom_configuration example_cmaps (accordion 2) [0; one_half]%Qc
      "terrain" 1%Qc true blank_axes3d = (Ok tt, ax') ∧
    collections ax' = [Polygons pc] ∧ length (verts pc) = 3 ∧
    zsort pc = zsort_max.
Proof.
  destruct (faces_in_one_max_sorted_collection example_cmaps (accordion 2)
              [0; one_half]%Qc "terrain" 1%Qc true blank_axes3d gray
              eq_refl eq_refl eq_refl)
    as (ax' & pc & Hrun & Hc & _ & Hn & Hz).
  by exists ax', pc.
Defined.

(** C10.  For every face [i] of a pattern whose faces can all be drawn, the
    polygon attached for the face has exactly [num_face_corner_points[i]]
    vertices, vertex [j] is corner [j] of the face multiplied by the face's
    matrix and recentred, and the call attaches the same collection for any
    other corner rows that agree with the pattern's on those first
    [num_face_corner_points[i]] entries of every face: the trailing slots
    have no influence. *)
Theorem face_polygon_from_valid_corners
    (colormaps : string → option Colormap)
    cp fold_angles name alpha edges ax i palette :
  colormaps name = Some palette →
  length fold_angles = num_folds cp →
  renderable cp fold_angles = true →
  i < num_faces cp →
  ∃ pc corners count composite center poly,
    plot_custom_configuration colormaps cp fold_angles name alpha edges ax
    = (Ok tt, with_collections [Polygons pc] ax) ∧
    face_corner_points cp !! i = Some corners ∧
    num_face_corner_points cp !! i = Some count ∧
    compute_folding_map cp fold_angles !! i = Some composite ∧
    face_centers cp !! fixed_face cp = Some center ∧
    verts pc !! i = Some poly ∧
    length poly = count ∧
    (∀ j, j < count →
       ∃ p, corners !! j = Some p ∧
            poly !! j
            = Some (folded_vertex composite (xlim3d ax).2 (ylim3d ax).2
                      center p)) ∧
    (∀ rows, same_valid_corners cp rows →
       plot_custom_configuration colormaps (with_face_corner_points rows cp)
         fold_angles name alpha edges ax
       = (Ok tt, with_collections [Polygons pc] ax)).
Proof.
  intros Hp Hlen Hr Hi.
  destruct (renderable_lookups _ _ _ Hr Hi)
    as (corners & count & composite & center & Hc & Hn & Hm & Hf & Hle).
  exists (folded_surface palette cp fold_angles alpha edges ax),
         corners, count, composite, center,
         (folded_vertex composite (xlim3d ax).2 (ylim3d ax).2 center
            <$> take count corners).
  split; [by apply plot_custom_configuration_renderable|].
  do 4 (split; [done|]).
  split.
  { rewrite lookup_folded_verts by done. unfold folded_face.
    by rewrite Hc, Hn, Hm, Hf. }
  split; [rewrite length_fmap, length_take; lia|].
  split.
  - intros j Hj.
    destruct (lookup_lt_is_Some_2 corners j ltac:(lia)) as [p Hp'].
    exists p. split; [done|].
    by rewrite list_lookup_fmap, lookup_take_lt, Hp' by done.
  - intros rows Hsame.
    rewrite (plot_custom_configuration_renderable _ _ _ _ _ _ _ palette);
      [|done|done|].
    + unfold folded_surface.
      cbn [num_faces compute_folding_map with_face_corner_points].
      do 5 f_equal. apply list_fmap_ext. intros k j [-> Hj]%lookup_seq.
      eapply same_valid_corners_face; eauto.
    + unfold renderable, range. apply forallb_forall.
      intros j [_ Hj]%in_seq.
      eapply (same_valid_corners_face cp fold_angles rows j []); eauto.
Qed.

Lemma face_polygon_from_valid_corners_witness :
  ∃ pc poly,
    plot_custom_configuration example_cmaps (accordion 2) [0; one_half]%Qc
      "terrain" 1%Qc true blank_axes3d
    = (Ok tt, with_collections [Polygons pc] blank_axes3d) ∧
    verts pc !! 1 = Some poly ∧ length poly = 4.
Proof.
  destruct (face_polygon_from_valid_corners example_cmaps (accordion 2)
              [0; one_half]%Qc "terrain" 1%Qc true blank_axes3d 1 gray
              eq_refl eq_refl eq_refl)
    as (pc & corners & count & composite & center & poly & Hrun & _ & Hn & _
        & _ & Hpoly & Hlen & _).
  - simpl. lia.
  - exists pc, poly. repeat split; [done|done|].
    rewrite Hlen. by injection Hn as <-.
Defined.

(** * Further properties of the four functions *)

(** Linear arithmetic over [Qc], by way of [Q]. *)
Ltac qc_lra :=
  unfold Qcle, Qclt, Qcdiv, Qcminus, one_half in *;
  repeat (progress (cbn [this Qcplus Qcmult Qcopp Qcinv Q2Qc] in *;
                    rewrite ?Qred_correct in * ));
  lra.

Lemma one_half_double (x : Qc) : (one_half * x + one_half * x = x)%Qc.
Proof.
  replace (one_half * x + one_half * x)%Qc
    with ((one_half + one_half) * x)%Qc by ring.
  replace (one_half + one_half)%Qc with 1%Qc by (by apply Qc_is_canon).
  ring.
Qed.

Lemma np_mean_half (a b : Qc) : np_mean (a, b) = (one_half * (a + b))%Qc.
Proof.
  unfold np_mean. cbn [fst snd]. rewrite Qc_of_nat_2.
  replace one_half with (/ (1 + 1))%Qc by (by apply Qc_is_canon).
  field. discriminate.
Qed.

Lemma np_mean_recentred (m r : Qc) : np_mean (m - r, m + r)%Qc = m.
Proof.
  unfold np_mean. cbn [fst snd]. rewrite Qc_of_nat_2. field. discriminate.
Qed.

Lemma span_recentred (m r : Qc) :
  (0 ≤ r)%Qc → span (m - r, m + r)%Qc = (r + r)%Qc.
Proof.
  intros H. unfold span. cbn [fst snd].
  replace (m + r - (m - r))%Qc with (r + r)%Qc by ring.
  apply Qcabs_pos. by apply Qcplus_nonneg_nonneg.
Qed.

Lemma within_radius (a b r : Qc) :
  (span (a, b) ≤ r + r)%Qc →
  (np_mean (a, b) - r ≤ a)%Qc ∧ (a ≤ np_mean (a, b) + r)%Qc ∧
  (np_mean (a, b) - r ≤ b)%Qc ∧ (b ≤ np_mean (a, b) + r)%Qc.
Proof.
  unfold span. cbn [fst snd].
  intros H. apply Qcabs_Qcle_condition in H as [H1 H2].
  rewrite np_mean_half. repeat split; qc_lra.
Qed.

Lemma largest_span_spec ax :
  (largest_span ax = span (xlim3d ax) ∨ largest_span ax = span (ylim3d ax) ∨
   largest_span ax = span (zlim3d ax)) ∧
  (span (xlim3d ax) ≤ largest_span ax)%Qc ∧
  (span (ylim3d ax) ≤ largest_span ax)%Qc ∧
  (span (zlim3d ax) ≤ largest_span ax)%Qc ∧
  (0 ≤ largest_span ax)%Qc.
Proof.
  destruct (py_max3_largest (span (xlim3d ax)) (span (ylim3d ax))
              (span (zlim3d ax))) as (Hin & Hx & Hy & Hz).
  unfold largest_span. do 4 (split; [done|]).
  eapply Qcle_trans; [|exact Hx]. apply Qcabs_nonneg.
Qed.

Lemma set_axes_equal_radius ax :
  set_axes_equal ax =
  (Ok tt,
   let r := (one_half * largest_span ax)%Qc in
   {| xlim3d := (np_mean (xlim3d ax) - r, np_mean (xlim3d ax) + r)%Qc;
      ylim3d := (np_mean (ylim3d ax) - r, np_mean (ylim3d ax) + r)%Qc;
      zlim3d := (np_mean (zlim3d ax) - r, np_mean (zlim3d ax) + r)%Qc;
      collections := collections ax |}).
Proof. reflexivity. Qed.

Lemma radius_nonneg ax : (0 ≤ one_half * largest_span ax)%Qc.
Proof.
  apply Qcmult_nonneg_nonneg; [done|]. apply largest_span_spec.
Qed.

Lemma set_axes_equal_spans ax :
  let ax' := (set_axes_equal ax).2 in
  span (xlim3d ax') = largest_span ax ∧
  span (ylim3d ax') = largest_span ax ∧
  span (zlim3d ax') = largest_span ax ∧
  np_mean (xlim3d ax') = np_mean (xlim3d ax) ∧
  np_mean (ylim3d ax') = np_mean (ylim3d ax) ∧
  np_mean (zlim3d ax') = np_mean (zlim3d ax).
Proof.
  intros ax'. subst ax'. rewrite set_axes_equal_radius.
  cbn [snd xlim3d ylim3d zlim3d].
  pose proof (radius_nonneg ax) as Hr.
  by rewrite !span_recentred, !np_mean_recentred, one_half_double by done.
Qed.

(** X1.  After [set_axes_equal] the three axes have the same span, which
    is the largest of the three spans the axes had before, and the midpoint
    of every axis is where it was. *)
Theorem set_axes_equal_makes_a_cube ax :
  let ax' := (set_axes_equal ax).2 in
  span (xlim3d ax') = largest_span ax ∧
  span (ylim3d ax') = largest_span ax ∧
  span (zlim3d ax') = largest_span ax ∧
  np_mean (xlim3d ax') = np_mean (xlim3d ax) ∧
  np_mean (ylim3d ax') = np_mean (ylim3d ax) ∧
  np_mean (zlim3d ax') = np_mean (zlim3d ax) ∧
  (span (xlim3d ax) ≤ largest_span ax)%Qc ∧
  (span (ylim3d ax) ≤ largest_span ax)%Qc ∧
  (span (zlim3d ax) ≤ largest_span ax)%Qc ∧
  (largest_span ax = span (xlim3d ax) ∨ largest_span ax = span (ylim3d ax) ∨
   largest_span ax = span (zlim3d ax)).
Proof.
  intros ax'.
  destruct (set_axes_equal_spans ax) as (Sx & Sy & Sz & Mx & My & Mz).
  destruct (largest_span_spec ax) as (Hin & Hx & Hy & Hz & _).
  repeat split; done.
Qed.

(** X2.  Nothing that was inside the old limits falls outside the new
    ones: on every axis both old limits lie between the new lower and the
    new upper limit. *)
Theorem set_axes_equal_keeps_old_limits_inside ax :
  let ax' := (set_axes_equal ax).2 in
  ((xlim3d ax').1 ≤ (xlim3d ax).1)%Qc ∧ ((xlim3d ax).1 ≤ (xlim3d ax').2)%Qc ∧
  ((xlim3d ax').1 ≤ (xlim3d ax).2)%Qc ∧ ((xlim3d ax).2 ≤ (xlim3d ax').2)%Qc ∧
  ((ylim3d ax').1 ≤ (ylim3d ax).1)%Qc ∧ ((ylim3d ax).1 ≤ (ylim3d ax').2)%Qc ∧
  ((ylim3d ax').1 ≤ (ylim3d ax).2)%Qc ∧ ((ylim3d ax).2 ≤ (ylim3d ax').2)%Qc ∧
  ((zlim3d ax').1 ≤ (zlim3d ax).1)%Qc ∧ ((zlim3d ax).1 ≤ (zlim3d ax').2)%Qc ∧
  ((zlim3d ax').1 ≤ (zlim3d ax).2)%Qc ∧ ((zlim3d ax).2 ≤ (zlim3d ax').2)%Qc.
Proof.
  intros ax'. subst ax'. rewrite set_axes_equal_radius.
  cbn [snd xlim3d ylim3d zlim3d fst].
  destruct (largest_span_spec ax) as (_ & Hx & Hy & Hz & _).
  rewrite <- (one_half_double (largest_span ax)) in Hx, Hy, Hz.
  destruct (xlim3d ax) as [x0 x1], (ylim3d ax) as [y0 y1],
    (zlim3d ax) as [z0 z1].
  destruct (within_radius _ _ _ Hx) as (? & ? & ? & ?).
  destruct (within_radius _ _ _ Hy) as (? & ? & ? & ?).
  destruct (within_radius _ _ _ Hz) as (? & ? & ? & ?).
  repeat split; done.
Qed.

(** X3.  [set_axes_equal] is idempotent: a second call returns and leaves
    the axes exactly as the first call left them. *)
Theorem set_axes_equal_idempotent ax :
  set_axes_equal (set_axes_equal ax).2 = (Ok tt, (set_axes_equal ax).2).
Proof.
  destruct (set_axes_equal_spans ax) as (Hx & Hy & Hz & Mx & My & Mz).
  rewrite (set_axes_equal_radius (set_axes_equal ax).2).
  cbn zeta. unfold largest_span at 1 2 3 4 5 6. rewrite Hx, Hy, Hz, Mx, My, Mz.
  assert (py_max (largest_span ax) [largest_span ax; largest_span ax]
          = largest_span ax) as ->.
  { unfold py_max, py_gt. cbn [fold_left].
    by repeat case_bool_decide. }
  by rewrite set_axes_equal_radius.
Qed.

(** X4.  [set_axes_equal] does not keep an inverted axis: when some axis
    has its upper limit below its lower limit, all three axes come out
    with lower limit strictly below upper limit. *)
Theorem set_axes_equal_undoes_inversion ax :
  ((xlim3d ax).2 < (xlim3d ax).1)%Qc ∨ ((ylim3d ax).2 < (ylim3d ax).1)%Qc ∨
  ((zlim3d ax).2 < (zlim3d ax).1)%Qc →
  let ax' := (set_axes_equal ax).2 in
  ((xlim3d ax').1 < (xlim3d ax').2)%Qc ∧
  ((ylim3d ax').1 < (ylim3d ax').2)%Qc ∧
  ((zlim3d ax').1 < (zlim3d ax').2)%Qc.
Proof.
  intros Hinv ax'. subst ax'. rewrite set_axes_equal_radius.
  cbn [snd xlim3d ylim3d zlim3d fst].
  assert (0 < largest_span ax)%Qc as Hpos.
  { destruct (largest_span_spec ax) as (_ & Hx & Hy & Hz & _).
    assert (∀ a b : Qc, (b < a)%Qc → (0 < span (a, b))%Qc) as Hspan.
    { intros a b Hab. unfold span. cbn [fst snd].
      rewrite Qcabs_neg by qc_lra. qc_lra. }
    destruct (xlim3d ax) as [x0 x1], (ylim3d ax) as [y0 y1],
      (zlim3d ax) as [z0 z1]. cbn [fst snd] in Hinv.
    destruct Hinv as [H|[H|H]]; apply Hspan in H;
      eauto using Qclt_le_trans. }
  assert (0 < one_half * largest_span ax)%Qc as Hr
    by (by apply Qcmult_pos_pos).
  repeat split; qc_lra.
Qed.

Lemma set_axes_equal_undoes_inversion_witness :
  let ax' := (set_axes_equal (axes3d_of (1, -1)%Z (-5, 5)%Z (0, 2)%Z [])).2 in
  ((xlim3d ax').1 < (xlim3d ax').2)%Qc ∧
  ((ylim3d ax').1 < (ylim3d ax').2)%Qc ∧
  ((zlim3d ax').1 < (zlim3d ax').2)%Qc.
Proof.
  apply (set_axes_equal_undoes_inversion
           (axes3d_of (1, -1)%Z (-5, 5)%Z (0, 2)%Z [])).
  left. reflexivity.
Defined.

(** The outcome of a call by cases on its checks, for rewriting. *)
Lemma plot_custom_configuration_cases (colormaps : string → option Colormap)
    cp fold_angles name alpha edges ax :
  plot_custom_configuration colormaps cp fold_angles name alpha edges ax
  = match colormaps name with
    | None => (Raise ValueError, ax)
    | Some palette =>
        if bool_decide (length fold_angles ≠ num_folds cp)
        then (Raise (NameError "Error"), ax)
        else if renderable cp fold_angles
        then (Ok tt,
              with_collections
                [Polygons (folded_surface palette cp fold_angles alpha
                             edges ax)] ax)
        else (Raise IndexError, with_collections [] ax)
    end.
Proof.
  destruct (colormaps name) as [palette|] eqn:Hp.
  - case_bool_decide as Hlen.
    + by apply (plot_custom_configuration_mismatch _ _ _ _ _ _ _ palette).
    + assert (length fold_angles = num_folds cp) as Hlen'
        by (destruct (decide (length fold_angles = num_folds cp)); tauto).
      destruct (renderable cp fold_angles) eqn:Hr.
      * by apply plot_custom_configuration_renderable.
      * by apply (plot_custom_configuration_not_renderable _ _ _ _ _ _ _
                    palette).
  - by apply plot_custom_configuration_unregistered.
Qed.

(** X5.  Every call of [plot_custom_configuration] with an [alpha] that
    matplotlib accepts, one in [[0, 1]], ends in one of four ways, checked
    in this order.  A palette name that is not registered:
    [ValueError], axes untouched, whatever the fold angles.  A fold-angle
    vector of the wrong length: [NameError] for the unbound name [Error],
    axes untouched.  The right length but a face that cannot be drawn (an
    array too short for it, or fewer corner slots than its count):
    [IndexError], and the axes are left with no collection at all, what was
    attached before is lost.  Otherwise the call returns and the axes hold
    the one new polygon collection. *)
Theorem plot_custom_configuration_outcomes
    (colormaps : string → option Colormap)
    cp fold_angles name alpha edges ax :
  (0 ≤ alpha)%Qc → (alpha ≤ 1)%Qc →
  plot_custom_configuration colormaps cp fold_angles name alpha edges ax
  = match colormaps name with
    | None => (Raise ValueError, ax)
    | Some palette =>
        if bool_decide (length fold_angles ≠ num_folds cp)
        then (Raise (NameError "Error"), ax)
        else if renderable cp fold_angles
        then (Ok tt,
              with_collections
                [Polygons (folded_surface palette cp fold_angles alpha
                             edges ax)] ax)
        else (Raise IndexError, with_collections [] ax)
    end.
Proof.
  intros _ _.
  destruct (colormaps name) as [palette|] eqn:Hp;
    [|by apply plot_custom_configuration_unregistered].
  destruct (decide (length fold_angles = num_folds cp)) as [Hlen|Hlen].
  - rewrite bool_decide_eq_false_2 by tauto.
    destruct (renderable cp fold_angles) eqn:Hr.
    + by apply plot_custom_configuration_renderable.
    + by apply (plot_custom_configuration_not_renderable _ _ _ _ _ _ _
                  palette).
  - rewrite bool_decide_eq_true_2 by done.
    by apply (plot_custom_configuration_mismatch _ _ _ _ _ _ _ palette).
Qed.

Lemma plot_custom_configuration_outcomes_witness :
  plot_custom_configuration example_cmaps (accordion 5) [0; one_half; 0]%Qc
    "no_such_map" one_half true blank_axes3d
  = (Raise ValueError, blank_axes3d) ∧
  plot_custom_configuration example_cmaps (accordion 2) [0; one_half]%Qc
    "gray" one_half true blank_axes3d
  = (Ok tt,
     with_collections
       [Polygons (folded_surface gray (accordion 2) [0; one_half]%Qc one_half
                    true blank_axes3d)] blank_axes3d).
Proof.
  assert (0 ≤ one_half)%Qc as H0 by (by vm_compute).
  assert (one_half ≤ 1)%Qc as H1 by (by vm_compute).
  split.
  - exact (plot_custom_configuration_outcomes example_cmaps (accordion 5)
             [0; one_half; 0]%Qc "no_such_map" one_half true blank_axes3d
             H0 H1).
  - exact (plot_custom_configuration_outcomes example_cmaps (accordion 2)
             [0; one_half]%Qc "gray" one_half true blank_axes3d H0 H1).
Defined.

(** X6.  Whatever the outcome, [plot_custom_configuration] leaves the
    three axis limits as they were; when it raises [IndexError] the axes
    hold no collection, and in every case the collections afterwards are
    the old ones, none, or a single polygon collection. *)
Theorem plot_custom_configuration_keeps_limits
    (colormaps : string → option Colormap)
    cp fold_angles name alpha edges ax :
  let run := plot_custom_configuration colormaps cp fold_angles name alpha
               edges ax in
  xlim3d run.2 = xlim3d ax ∧ ylim3d run.2 = ylim3d ax ∧
  zlim3d run.2 = zlim3d ax ∧
  (run.1 = Raise IndexError → collections run.2 = []) ∧
  (collections run.2 = collections ax ∨ collections run.2 = [] ∨
   ∃ pc, collections run.2 = [Polygons pc]).
Proof.
  intros run. subst run. rewrite plot_custom_configuration_cases.
  destruct (colormaps name) as [palette|];
    [case_bool_decide; [|destruct (renderable cp fold_angles)]|]; cbn;
    repeat split; eauto; done.
Qed.

(** X7.  Of the axes, [plot_custom_configuration] reads only the upper x
    and the upper y limit: on two axes that agree on these the call has the
    same outcome and, when the palette is registered and the vector has the
    right length, leaves the same collections, whatever the lower limits,
    the z limits and the collections attached before. *)
Theorem plot_custom_configuration_reads_upper_limits
    (colormaps : string → option Colormap)
    cp fold_angles name alpha edges ax1 ax2 :
  (xlim3d ax1).2 = (xlim3d ax2).2 →
  (ylim3d ax1).2 = (ylim3d ax2).2 →
  let run1 := plot_custom_configuration colormaps cp fold_angles name alpha
                edges ax1 in
  let run2 := plot_custom_configuration colormaps cp fold_angles name alpha
                edges ax2 in
  run1.1 = run2.1 ∧
  (is_Some (colormaps name) → length fold_angles = num_folds cp →
   collections run1.2 = collections run2.2).
Proof.
  intros Hx Hy run1 run2. subst run1 run2.
  rewrite !plot_custom_configuration_cases.
  destruct (colormaps name) as [palette|].
  - case_bool_decide as Hlen; [done|].
    destruct (renderable cp fold_angles); [|done].
    split; [done|]. intros _ _. cbn. unfold folded_surface.
    by rewrite Hx, Hy.
  - split; [done|]. by intros [? ?].
Qed.

Lemma plot_custom_configuration_reads_upper_limits_witness :
  let ax2 := axes3d_of (-3, 4)%Z (1, 2)%Z (5, 9)%Z [OtherCollection "markers"] in
  let run1 := plot_custom_configuration example_cmaps (accordion 2)
                [0; one_half]%Qc "terrain" 1%Qc false blank_axes3d in
  let run2 := plot_custom_configuration example_cmaps (accordion 2)
                [0; one_half]%Qc "terrain" 1%Qc false ax2 in
  run1.1 = run2.1 ∧ collections run1.2 = collections run2.2.
Proof.
  intros ax2 run1 run2.
  destruct (plot_custom_configuration_reads_upper_limits example_cmaps
              (accordion 2) [0; one_half]%Qc "terrain" 1%Qc false
              blank_axes3d ax2 eq_refl eq_refl) as [H1 H2].
  split; [exact H1|]. apply H2; [by eexists|reflexivity].
Defined.

(** X8.  A pattern without faces: with a registered palette and a vector
    of the right length the call returns and attaches a polygon collection
    with no polygon and no colour, whatever the other arrays and
    [fixed_face] hold. *)
Theorem plot_custom_configuration_no_faces
    (colormaps : string → option Colormap)
    cp fold_angles name alpha edges ax palette :
  colormaps name = Some palette →
  num_faces cp = 0 →
  length fold_angles = num_folds cp →
  ∃ pc,
    plot_custom_configuration colormaps cp fold_angles name alpha edges ax
    = (Ok tt, with_collections [Polygons pc] ax) ∧
    verts pc = [] ∧ facecolor pc = Some [] ∧ zsort pc = zsort_max.
Proof.
  intros Hp Hn Hlen. eexists. split.
  - apply (plot_custom_configuration_renderable _ _ _ _ _ _ _ palette);
      [done|done|].
    unfold renderable. by rewrite Hn.
  - cbn. unfold face_colors. by rewrite Hn.
Qed.

Lemma plot_custom_configuration_no_faces_witness :
  ∃ pc,
    plot_custom_configuration example_cmaps empty_pattern [] "terrain" 1%Qc
      false blank_axes3d
    = (Ok tt, with_collections [Polygons pc] blank_axes3d) ∧ verts pc = [].
Proof.
  destruct (plot_custom_configuration_no_faces example_cmaps empty_pattern []
              "terrain" 1%Qc false blank_axes3d gray eq_refl eq_refl eq_refl)
    as (pc & Hrun & Hv & _).
  by exists pc.
Defined.

(** X9.  The face colours do not depend on the folding: two successful
    renders under the same palette name of patterns with the same number of
    faces give the same list of face colours, whatever the fold angles, the
    geometry, alpha, the edge flag and the axes. *)
Theorem face_colours_ignore_folding (colormaps : string → option Colormap)
    cp1 cp2 fold_angles1 fold_angles2 name alpha1 alpha2 edges1 edges2
    ax1 ax2 ax1' ax2' :
  num_faces cp1 = num_faces cp2 →
  plot_custom_configuration colormaps cp1 fold_angles1 name alpha1 edges1 ax1
  = (Ok tt, ax1') →
  plot_custom_configuration colormaps cp2 fold_angles2 name alpha2 edges2 ax2
  = (Ok tt, ax2') →
  ∃ pc1 pc2 cs,
    collections ax1' = [Polygons pc1] ∧ collections ax2' = [Polygons pc2] ∧
    facecolor pc1 = Some cs ∧ facecolor pc2 = Some cs.
Proof.
  intros Hn H1 H2.
  destruct (plot_custom_configuration_Ok _ _ _ _ _ _ _ _ H1)
    as (palette & Hp & Hl1 & Hr1).
  destruct (plot_custom_configuration_Ok _ _ _ _ _ _ _ _ H2)
    as (palette' & Hp' & Hl2 & Hr2).
  rewrite Hp in Hp'. injection Hp' as <-.
  rewrite (plot_custom_configuration_renderable _ _ _ _ _ _ _ _ Hp) in H1
    by done.
  rewrite (plot_custom_configuration_renderable _ _ _ _ _ _ _ _ Hp) in H2
    by done.
  injection H1 as <-. injection H2 as <-.
  eexists _, _, _. split; [reflexivity|]. split; [reflexivity|].
  cbn. by rewrite Hn.
Qed.

Lemma face_colours_ignore_folding_witness :
  ∃ pc1 pc2 cs,
    collections
      (plot_custom_configuration example_cmaps (accordion 2) [0; 0]%Qc
         "terrain" 1%Qc false blank_axes3d).2 = [Polygons pc1] ∧
    collections
      (plot_custom_configuration example_cmaps (accordion 2)
         [0; one_half]%Qc "terrain" one_half true blank_axes3d).2
    = [Polygons pc2] ∧
    facecolor pc1 = Some cs ∧ facecolor pc2 = Some cs.
Proof.
  pose proof (plot_custom_configuration_renderable example_cmaps (accordion 2)
                [0; 0]%Qc "terrain" 1%Qc false blank_axes3d gray eq_refl
                eq_refl eq_refl)
    as H1.
  pose proof (plot_custom_configuration_renderable example_cmaps (accordion 2)
                [0; one_half]%Qc "terrain" one_half true blank_axes3d gray
                eq_refl eq_refl eq_refl) as H2.
  destruct (face_colours_ignore_folding example_cmaps _ _ _ _ _ _ _ _ _ _ _ _
              _ eq_refl H1 H2) as (pc1 & pc2 & cs & Hc1 & Hc2 & Hf1 & Hf2).
  exists pc1, pc2, cs. rewrite H1, H2. by repeat split.
Defined.

(** X10.  A face whose matrix is the identity is drawn flat: its polygon
    is its valid corners translated by half the drawing size minus the
    centre of the fixed face, every vertex at z = 0. *)
Theorem unmoved_face_is_translated (colormaps : string → option Colormap)
    cp fold_angles name alpha edges ax i palette :
  colormaps name = Some palette →
  length fold_angles = num_folds cp →
  renderable cp fold_angles = true →
  i < num_faces cp →
  compute_folding_map cp fold_angles !! i = Some identity4 →
  ∃ pc corners count center,
    plot_custom_configuration colormaps cp fold_angles name alpha edges ax
    = (Ok tt, with_collections [Polygons pc] ax) ∧
    face_corner_points cp !! i = Some corners ∧
    num_face_corner_points cp !! i = Some count ∧
    face_centers cp !! fixed_face cp = Some center ∧
    verts pc !! i
    = Some ((λ p : vec2,
               (p.1 + (xlim3d ax).2 * one_half - center.1,
                p.2 + (ylim3d ax).2 * one_half - center.2, 0)%Qc)
              <$> take count corners).
Proof.
  intros Hp Hlen Hr Hi Hid.
  destruct (renderable_lookups _ _ _ Hr Hi)
    as (corners & count & composite & center & Hc & Hn & Hm & Hf & Hle).
  eexists _, corners, count, center.
  split;
    [by apply (plot_custom_configuration_renderable _ _ _ _ _ _ _ palette)|].
  do 3 (split; [done|]).
  rewrite lookup_folded_verts by done. unfold folded_face.
  rewrite Hc, Hn, Hid, Hf. f_equal. apply list_fmap_ext.
  intros _ p _. apply folded_vertex_identity.
Qed.

Lemma unmoved_face_is_translated_witness :
  ∃ pc,
    plot_custom_configuration example_cmaps (accordion 2) [0; one_half]%Qc
      "terrain" 1%Qc false blank_axes3d
    = (Ok tt, with_collections [Polygons pc] blank_axes3d) ∧
    ∃ poly, verts pc !! 1 = Some poly ∧ length poly = 4.
Proof.
  destruct (unmoved_face_is_translated example_cmaps (accordion 2)
              [0; one_half]%Qc "terrain" 1%Qc false blank_axes3d 1 gray
              eq_refl eq_refl eq_refl)
    as (pc & corners & count & center & Hrun & Hc & Hn & _ & Hv).
  - simpl. lia.
  - reflexivity.
  - exists pc. split; [exact Hrun|]. eexists. split; [exact Hv|].
    injection Hc as <-. injection Hn as <-. reflexivity.
Defined.

(** X11.  [plot_reference_configuration] never fails the length check.
    With the palette "terrain" registered, as it is in matplotlib, it
    returns with the flat surface attached exactly when every face can be
    drawn, and otherwise raises [IndexError] with the collections emptied;
    without that palette it raises [ValueError] and leaves the axes
    alone. *)
Theorem plot_reference_configuration_outcomes
    (colormaps : string → option Colormap) cp ax :
  plot_reference_configuration colormaps cp ax
  = match colormaps "terrain" with
    | Some palette =>
        if renderable cp (zeros (num_folds cp))
        then (Ok tt,
              with_collections
                [Polygons (folded_surface palette cp
                             (zeros (num_folds cp)) 1%Qc false ax)] ax)
        else (Raise IndexError, with_collections [] ax)
    | None => (Raise ValueError, ax)
    end.
Proof.
  unfold plot_reference_configuration. rewrite replicate_zeros.
  fold (zeros (num_folds cp)).
  rewrite plot_custom_configuration_cases.
  unfold default_color_map_name.
  destruct (colormaps "terrain") as [palette|]; [|done].
  rewrite bool_decide_eq_false_2; [done|].
  intros H. apply H. unfold zeros. apply length_replicate.
Qed.

(** X12.  In the default colour mode a pattern with fewer target angles
    than folds makes [plot_crease_pattern] raise [IndexError] before it has
    drawn anything: the axes are unchanged. *)
Theorem plot_crease_pattern_missing_targets (colormaps : string → option Colormap)
    cp name annotate_folds annotate_reference_points annotate_faces ax :
  truthy name = false →
  length (fold_angle_target cp) < num_folds cp →
  plot_crease_pattern colormaps cp name annotate_folds
    annotate_reference_points annotate_faces ax
  = (Raise IndexError, ax).
Proof.
  intros Hname Hlen. apply plot_crease_pattern_no_colors.
  unfold crease_colors, range. rewrite Hname.
  apply default_colors_fail; lia.
Qed.

Lemma plot_crease_pattern_missing_targets_witness :
  plot_crease_pattern example_cmaps (with_fold_angle_target [] (accordion 2))
    None true true true blank_axes2d
  = (Raise IndexError, blank_axes2d).
Proof.
  apply (plot_crease_pattern_missing_targets example_cmaps
           (with_fold_angle_target [] (accordion 2)) None true true true
           blank_axes2d).
  - reflexivity.
  - simpl. lia.
Defined.

(** X13.  With the name of a registered palette the colour of fold [i]
    is the palette at position [i / num_folds], one colour per fold, and
    [fold_angle_target] is never read: this holds however short that
    array is. *)
Theorem palette_colours_ignore_targets
    (colormaps : string → option Colormap)
    cp name annotate_folds annotate_reference_points annotate_faces ax
    palette :
  name ≠ EmptyString →
  colormaps name = Some palette →
  ∃ lc,
    artists (plot_crease_pattern colormaps cp (Some name) annotate_folds
               annotate_reference_points annotate_faces ax).2
      !! length (artists ax) = Some (Lines lc) ∧
    length (colors lc) = num_folds cp ∧
    ∀ i, i < num_folds cp →
      colors lc !! i
      = Some (rgb_of (palette
                        (Qc_of_nat i / Qc_of_nat (num_folds cp))%Qc)).
Proof.
  intros Hname Hp.
  pose proof (crease_colors_palette colormaps cp name palette Hname Hp) as Hc.
  destruct (plot_crease_pattern_drawn colormaps cp (Some name) annotate_folds
              annotate_reference_points annotate_faces ax _ Hc)
    as [labels ->].
  eexists. split; [|split].
  - apply artists_drawn_lines.
  - apply length_face_colors.
  - intros i Hi. cbn [colors]. rewrite lookup_face_colors by done.
    by rewrite palette_position_linear by lia.
Qed.

Lemma palette_colours_ignore_targets_witness :
  ∃ lc,
    artists (plot_crease_pattern example_cmaps
               (with_fold_angle_target [] (accordion 2)) (Some "two_tone")
               false false false blank_axes2d).2 !! 0 = Some (Lines lc) ∧
    length (colors lc) = 2.
Proof.
  destruct (palette_colours_ignore_targets example_cmaps
              (with_fold_angle_target [] (accordion 2)) "two_tone"
              false false false blank_axes2d two_tone)
    as (lc & Hlc & Hlen & _).
  - discriminate.
  - reflexivity.
  - by exists lc.
Defined.

(** X14.  [plot_crease_pattern] only adds.  Whatever the outcome, the
    artists that were on the axes are still there, in order, before
    anything the call has drawn, and the autoscale settings are as they
    were.  An axis whose limits the caller has set keeps them; the limits
    of an axis that autoscales may move, to follow the data. *)
Theorem plot_crease_pattern_only_adds (colormaps : string → option Colormap)
    cp name annotate_folds annotate_reference_points annotate_faces ax :
  let ax' := (plot_crease_pattern colormaps cp name annotate_folds
                annotate_reference_points annotate_faces ax).2 in
  artists ax `prefix_of` artists ax' ∧
  autoscalex_on ax' = autoscalex_on ax ∧
  autoscaley_on ax' = autoscaley_on ax ∧
  (autoscalex_on ax = false → xlim ax' = xlim ax) ∧
  (autoscaley_on ax = false → ylim ax' = ylim ax).
Proof.
  intros ax'. subst ax'.
  destruct (crease_colors colormaps cp name) as [cs|e] eqn:Hc.
  - destruct (plot_crease_pattern_drawn colormaps cp name annotate_folds
                annotate_reference_points annotate_faces ax cs Hc)
      as [labels ->].
    cbn [artists xlim ylim autoscalex_on autoscaley_on with_artists
         diagram_drawn with_aspect lines_and_markers autoscale_view].
    split; [rewrite <- (assoc_L (++)); by eexists|].
    do 2 (split; [done|]). by split; intros ->.
  - rewrite (plot_crease_pattern_no_colors _ _ _ _ _ _ _ _ Hc). by cbn.
Qed.

(** X15.  The line collection pairs the endpoints by position and stops
    at the shorter of [p1] and [p2] without complaint: it has
    [min (len p1) (len p2)] segments, segment [i] is [[p1[i], p2[i]]], the
    line width is 1, and there are [num_folds] colours whether or not that
    is the number of segments. *)
Theorem segments_pair_the_endpoints (colormaps : string → option Colormap)
    cp name annotate_folds annotate_reference_points annotate_faces ax :
  colors_available colormaps cp name →
  ∃ lc,
    artists (plot_crease_pattern colormaps cp name annotate_folds
               annotate_reference_points annotate_faces ax).2
      !! length (artists ax) = Some (Lines lc) ∧
    length (segments lc) = length (p1 cp) `min` length (p2 cp) ∧
    length (colors lc) = num_folds cp ∧
    linewidths lc = 1%Qc ∧
    ∀ i (a b : vec2), p1 cp !! i = Some a → p2 cp !! i = Some b →
      segments lc !! i = Some [a; b].
Proof.
  intros H. destruct (crease_colors_Ok colormaps cp name H) as (cs & Hc & Hs).
  destruct (plot_crease_pattern_drawn colormaps cp name annotate_folds
              annotate_reference_points annotate_faces ax cs Hc)
    as [labels ->].
  eexists. split; [|split; [|split; [|split]]].
  - apply artists_drawn_lines.
  - cbn [segments]. by rewrite length_fmap, length_zip.
  - cbn [colors]. unfold crease_colors, colors_available, get_cmap in Hc, H.
    destruct (truthy name).
    + destruct H as [palette Hp]. rewrite Hp in Hc.
      injection Hc as <-. apply length_face_colors.
    + rewrite Hs by done. rewrite length_fmap, length_take. lia.
  - done.
  - intros i a b Ha Hb. cbn [segments]. rewrite list_lookup_fmap.
    apply fmap_Some. exists (a, b).
    split; [by apply lookup_zip_Some|done].
Qed.

Lemma segments_pair_the_endpoints_witness :
  ∃ lc,
    artists (plot_crease_pattern example_cmaps (accordion 3) None true true
               true blank_axes2d).2 !! 0 = Some (Lines lc) ∧
    length (segments lc) = 3 ∧ length (colors lc) = 3.
Proof.
  destruct (segments_pair_the_endpoints example_cmaps (accordion 3) None true
              true true blank_axes2d)
    as (lc & Hlc & Hs & Hc & _).
  - unfold colors_available. simpl. lia.
  - by exists lc.
Defined.

(** X16.  With the three annotation flags off the call returns having
    added exactly two artists, the line collection and then the markers of
    the reference points at z-order 2; the view has followed the data on
    the axes that autoscale, and the aspect is set from the limits read
    then.  [fold_vector_points] and [face_centers] are not read. *)
Theorem diagram_without_labels (colormaps : string → option Colormap)
    cp name ax :
  colors_available colormaps cp name →
  ∃ lc xs ys,
    let drawn :=
      autoscale_view (with_artists [Lines lc; Scatter xs ys 2] ax) in
    plot_crease_pattern colormaps cp name false false false ax
    = (Ok tt, with_aspect (box_aspect drawn) drawn) ∧
    artists drawn = artists ax ++ [Lines lc; Scatter xs ys 2] ∧
    xs = fst <$> reference_points cp ∧ ys = snd <$> reference_points cp.
Proof.
  intros H. destruct (crease_colors_Ok colormaps cp name H) as (cs & Hc & _).
  rewrite (plot_crease_pattern_run _ _ _ _ _ _ _ _ Hc).
  eexists _, _, _. split; [|done].
  unfold diagram_labelled. cbn [andb app]. by rewrite with_artists_nil.
Qed.

Lemma diagram_without_labels_witness :
  ∃ lc xs ys,
    artists (plot_crease_pattern example_cmaps (accordion 3) None false false
               false new_axes2d).2 = [Lines lc; Scatter xs ys 2].
Proof.
  destruct (diagram_without_labels example_cmaps (accordion 3) None
              new_axes2d) as (lc & xs & ys & Hrun & Harts & _).
  - unfold colors_available. simpl. lia.
  - exists lc, xs, ys. rewrite Hrun. exact Harts.
Defined.

Lemma diagram_artists_list (colormaps : string → option Colormap) cp name
    annotate_folds annotate_reference_points annotate_faces ax :
  colors_available colormaps cp name →
  annotate_folds = false ∨
    length (p1 cp) `min` length (p2 cp) ≤ length (fold_vector_points cp) →
  ∃ cs,
    (plot_crease_pattern colormaps cp name annotate_folds
       annotate_reference_points annotate_faces ax).1 = Ok tt ∧
    artists (plot_crease_pattern colormaps cp name annotate_folds
               annotate_reference_points annotate_faces ax).2
    = artists ax ++ [crease_lines cp cs; crease_markers cp]
        ++ (if annotate_folds then fold_labels cp else [])
        ++ (if annotate_reference_points then vertex_labels cp else [])
        ++ (if annotate_faces then face_labels cp else []).
Proof.
  intros H Hfit.
  destruct (crease_colors_Ok colormaps cp name H) as (cs & Hc & _).
  rewrite (plot_crease_pattern_run _ _ _ _ _ _ _ _ Hc).
  exists cs. unfold diagram_labelled.
  assert (annotate_folds && negb (fold_labels_fit cp) = false) as ->.
  { destruct Hfit as [->|Hfit]; [done|].
    unfold fold_labels_fit. rewrite length_midpoints.
    rewrite bool_decide_eq_true_2 by done. by destruct annotate_folds. }
  cbn [fst snd artists with_artists diagram_drawn with_aspect
       lines_and_markers autoscale_view].
  split; [done|]. by rewrite <- !(assoc_L (++)).
Qed.

Lemma length_fold_labels_fit cp (annotate_folds : bool) :
  annotate_folds = false ∨
    length (p1 cp) `min` length (p2 cp) ≤ length (fold_vector_points cp) →
  length (if annotate_folds then fold_labels cp else [])
  = if annotate_folds then length (p1 cp) `min` length (p2 cp) else 0.
Proof.
  intros Hfit. destruct annotate_folds; [|done].
  rewrite length_fold_labels, length_midpoints.
  destruct Hfit as [|Hfit]; [done|]. lia.
Qed.

Lemma length_vertex_labels cp :
  length (vertex_labels cp) = length (reference_points cp).
Proof. unfold vertex_labels. by rewrite length_fmap, length_enumerate. Qed.

Lemma length_face_labels cp :
  length (face_labels cp) = length (face_centers cp).
Proof. unfold face_labels. by rewrite length_fmap, length_enumerate. Qed.

(** X17.  When the colours can be computed and, if folds are annotated,
    every segment has its pair of endpoint indices, the call returns and
    has added, in this order: the line collection, the markers, one label
    per segment, one label per reference point, one label per face centre,
    each group only if its flag is set. *)
Theorem diagram_artists_in_order (colormaps : string → option Colormap) cp name
    annotate_folds annotate_reference_points annotate_faces ax :
  colors_available colormaps cp name →
  annotate_folds = false ∨
    length (p1 cp) `min` length (p2 cp) ≤ length (fold_vector_points cp) →
  let run := plot_crease_pattern colormaps cp name annotate_folds
               annotate_reference_points annotate_faces ax in
  ∃ cs,
    run.1 = Ok tt ∧
    artists run.2
    = artists ax ++ [crease_lines cp cs; crease_markers cp]
        ++ (if annotate_folds then fold_labels cp else [])
        ++ (if annotate_reference_points then vertex_labels cp else [])
        ++ (if annotate_faces then face_labels cp else []) ∧
    length (artists run.2)
    = length (artists ax) + 2
      + (if annotate_folds then length (p1 cp) `min` length (p2 cp) else 0)
      + (if annotate_reference_points then length (reference_points cp)
         else 0)
      + (if annotate_faces then length (face_centers cp) else 0).
Proof.
  intros H Hfit run. subst run.
  destruct (diagram_artists_list colormaps cp name annotate_folds
              annotate_reference_points annotate_faces ax H Hfit)
    as (cs & Hok & Harts).
  exists cs. split; [done|]. split; [done|].
  rewrite Harts, !length_app, (length_fold_labels_fit _ _ Hfit).
  cbn [length].
  destruct annotate_reference_points, annotate_faces;
    rewrite ?length_vertex_labels, ?length_face_labels; cbn [length]; lia.
Qed.

Lemma diagram_artists_in_order_witness :
  let run := plot_crease_pattern example_cmaps (accordion 3) None true true
               true blank_axes2d in
  run.1 = Ok tt ∧ length (artists run.2) = 0 + 2 + 3 + 10 + 4.
Proof.
  intros run.
  destruct (diagram_artists_in_order example_cmaps (accordion 3) None true
              true true blank_axes2d)
    as (cs & Hok & _ & Hlen).
  - unfold colors_available. simpl. lia.
  - right. simpl. lia.
  - split; [exact Hok|exact Hlen].
Defined.

(** X18.  Annotating folds on a pattern with fewer pairs of endpoint
    indices than segments: the call raises [IndexError], but only after it
    has drawn the lines and the markers, set the aspect from the limits
    read after that drawing, and added the fold labels for which a pair
    existed; no vertex or face label is added. *)
Theorem fold_labels_stop_at_missing_endpoints
    (colormaps : string → option Colormap)
    cp name annotate_reference_points annotate_faces ax :
  colors_available colormaps cp name →
  length (fold_vector_points cp) < length (p1 cp) `min` length (p2 cp) →
  let run := plot_crease_pattern colormaps cp name true
               annotate_reference_points annotate_faces ax in
  ∃ cs,
    run.1 = Raise IndexError ∧
    artists run.2
    = artists ax ++ [crease_lines cp cs; crease_markers cp] ++ fold_labels cp ∧
    length (fold_labels cp) = length (fold_vector_points cp) ∧
    xlim run.2 = xlim (lines_and_markers cp cs ax) ∧
    ylim run.2 = ylim (lines_and_markers cp cs ax) ∧
    aspect run.2 = aspect_ratio (box_aspect run.2).
Proof.
  intros H Hshort run. subst run.
  destruct (crease_colors_Ok colormaps cp name H) as (cs & Hc & _).
  rewrite (plot_crease_pattern_run _ _ _ _ _ _ _ _ Hc).
  exists cs. unfold diagram_labelled.
  assert (fold_labels_fit cp = false) as ->.
  { unfold fold_labels_fit. rewrite length_midpoints.
    apply bool_decide_eq_false_2. lia. }
  cbn [andb negb fst snd artists aspect xlim ylim with_artists diagram_drawn
       with_aspect].
  split; [done|].
  split.
  { cbn [artists lines_and_markers autoscale_view with_artists].
    by rewrite <- !(assoc_L (++)). }
  split; [rewrite length_fold_labels, length_midpoints; lia|].
  done.
Qed.

Lemma fold_labels_stop_at_missing_endpoints_witness :
  let cp := with_fold_vector_points [(2, 3)] (accordion 3) in
  let run := plot_crease_pattern example_cmaps cp None true true true
               new_axes2d in
  run.1 = Raise IndexError ∧ length (fold_labels cp) = 1 ∧
  aspect run.2 = aspect_ratio (box_aspect run.2).
Proof.
  intros cp run.
  destruct (fold_labels_stop_at_missing_endpoints example_cmaps cp None true
              true new_axes2d)
    as (cs & Hraise & _ & Hlen & _ & _ & Haspect).
  - unfold colors_available. simpl. lia.
  - simpl. lia.
  - split; [exact Hraise|]. split; [exact Hlen|exact Haspect].
Defined.

Lemma diagram_artists_lookup_fold cp af ar afc s i a :
  af = true → fold_labels cp !! i = Some a →
  artists (diagram_labelled cp af ar afc s).2 !! (length (artists s) + i)
  = Some a.
Proof.
  intros -> Hi. unfold diagram_labelled.
  destruct (_ && _); cbn [snd artists with_artists];
    rewrite lookup_app_r by lia;
    replace (length (artists s) + i - length (artists s)) with i by lia;
    [done|].
  by apply lookup_app_l_Some.
Qed.

(** X19.  The label of fold [i] is the artist number [2 + i] that the call
    adds; it reads "e{i}", a newline, and the two endpoint indices of
    [fold_vector_points[i]] joined by a dash, is bold and centred without
    offset, and sits at the midpoint of [p1[i]] and [p2[i]].  It is there
    also when a later fold label makes the call raise. *)
Theorem fold_label_at_midpoint (colormaps : string → option Colormap) cp name
    annotate_reference_points annotate_faces ax i (a b : vec2)
    (ends : nat * nat) :
  colors_available colormaps cp name →
  p1 cp !! i = Some a → p2 cp !! i = Some b →
  fold_vector_points cp !! i = Some ends →
  ∃ t,
    artists (plot_crease_pattern colormaps cp name true
               annotate_reference_points annotate_faces ax).2
      !! (length (artists ax) + 2 + i) = Some (Text t) ∧
    text t = "e" +:+ pretty i +:+ newline +:+ pretty ends.1 +:+ "-"
               +:+ pretty ends.2 ∧
    xy t = ((a.1 + b.1) * one_half, (a.2 + b.2) * one_half)%Qc ∧
    xytext t = (0, 0)%Z ∧ ha t = "center"%string ∧
    fontweight t = Some "bold"%string.
Proof.
  intros H Ha Hb He.
  destruct (crease_colors_Ok colormaps cp name H) as (cs & Hc & _).
  rewrite (plot_crease_pattern_run _ _ _ _ _ _ _ _ Hc).
  pose proof (lookup_fold_labels cp i _ ends (lookup_midpoints cp i a b Ha Hb)
                He) as Hl.
  pose proof (diagram_artists_lookup_fold cp true annotate_reference_points
                annotate_faces (diagram_drawn cp cs ax) i _ eq_refl Hl) as Hat.
  replace (length (artists ax) + 2 + i)
    with (length (artists (diagram_drawn cp cs ax)) + i)
    by (cbn [artists diagram_drawn with_aspect lines_and_markers
             autoscale_view with_artists];
        rewrite length_app; cbn; lia).
  eexists. split; [exact Hat|]. done.
Qed.

Lemma fold_label_at_midpoint_witness :
  ∃ t,
    artists (plot_crease_pattern example_cmaps (accordion 3) None true true
               true blank_axes2d).2 !! (0 + 2 + 1) = Some (Text t) ∧
    text t = "e1" +:+ newline +:+ "4-5".
Proof.
  destruct (fold_label_at_midpoint example_cmaps (accordion 3) None true true
              blank_axes2d 1 (Qc_of_nat 2, 0%Qc) (Qc_of_nat 2, 1%Qc) (4, 5))
    as (t & Ht & Htext & _).
  - unfold colors_available. simpl. lia.
  - reflexivity.
  - reflexivity.
  - reflexivity.
  - exists t. split; [exact Ht|exact Htext].
Defined.

(** X20.  With vertex and face labels on, the labels of the reference
    points follow the fold labels and those of the face centres follow
    them: reference point [j] gets "v{j}" at the point, 4 units above it,
    face centre [j] gets "F{j}" at the centre without offset. *)
Theorem vertex_and_face_labels (colormaps : string → option Colormap) cp name
    annotate_folds ax :
  colors_available colormaps cp name →
  annotate_folds = false ∨
    length (p1 cp) `min` length (p2 cp) ≤ length (fold_vector_points cp) →
  let arts := artists (plot_crease_pattern colormaps cp name annotate_folds
                         true true ax).2 in
  let first := length (artists ax) + 2
               + (if annotate_folds
                  then length (p1 cp) `min` length (p2 cp) else 0) in
  (∀ j (p : vec2), reference_points cp !! j = Some p →
     arts !! (first + j)
     = Some (Text {| text := "v" +:+ pretty j; xy := p;
                     textcoords := "offset points"; xytext := (0, 4)%Z;
                     ha := "center"; fontsize := 8; fontweight := None |})) ∧
  (∀ j (p : vec2), face_centers cp !! j = Some p →
     arts !! (first + length (reference_points cp) + j)
     = Some (Text {| text := "F" +:+ pretty j; xy := p;
                     textcoords := "offset points"; xytext := (0, 0)%Z;
                     ha := "center"; fontsize := 8; fontweight := None |})).
Proof.
  intros H Hfit arts first.
  destruct (diagram_artists_list colormaps cp name annotate_folds true true
              ax H Hfit) as (cs & _ & Harts).
  subst arts. rewrite Harts. clear Harts.
  pose proof (length_fold_labels_fit _ _ Hfit) as Hlen.
  pose proof (length_vertex_labels cp) as Hv.
  split; intros j p Hp; subst first.
  - rewrite lookup_app_r by lia.
    rewrite lookup_app_r by (cbn; lia).
    rewrite lookup_app_r by (cbn; lia).
    rewrite Hlen. cbn [length].
    replace (_ - _ - _ - _) with j by lia.
    apply lookup_app_l_Some. by apply lookup_vertex_labels.
  - rewrite lookup_app_r by lia.
    rewrite lookup_app_r by (cbn; lia).
    rewrite lookup_app_r by (cbn; lia).
    rewrite lookup_app_r by (cbn; lia).
    rewrite Hlen, Hv. cbn [length].
    replace (_ - _ - _ - _ - _) with j by lia.
    by apply lookup_face_labels.
Qed.

Lemma vertex_and_face_labels_witness :
  let arts := artists (plot_crease_pattern example_cmaps (accordion 3) None
                         true true true blank_axes2d).2 in
  arts !! (0 + 2 + 3 + 4)
  = Some (Text {| text := "v4"; xy := (Qc_of_nat 2, 0%Qc);
                  textcoords := "offset points"; xytext := (0, 4)%Z;
                  ha := "center"; fontsize := 8; fontweight := None |}).
Proof.
  intros arts.
  destruct (vertex_and_face_labels example_cmaps (accordion 3) None true
              blank_axes2d) as [Hv _].
  - unfold colors_available. simpl. lia.
  - right. simpl. lia.
  - apply (Hv 4 (Qc_of_nat 2, 0%Qc)). reflexivity.
Defined.

(** X21.  No two reference points get the same label: for two different
    indices the vertex labels the call adds sit at their own points and
    have different texts. *)
Theorem vertex_labels_differ (colormaps : string → option Colormap) cp name
    annotate_folds annotate_faces ax j k (p q : vec2) :
  colors_available colormaps cp name →
  annotate_folds = false ∨
    length (p1 cp) `min` length (p2 cp) ≤ length (fold_vector_points cp) →
  reference_points cp !! j = Some p →
  reference_points cp !! k = Some q →
  j ≠ k →
  let arts := artists (plot_crease_pattern colormaps cp name annotate_folds
                         true annotate_faces ax).2 in
  let first := length (artists ax) + 2
               + (if annotate_folds
                  then length (p1 cp) `min` length (p2 cp) else 0) in
  ∃ tj tk,
    arts !! (first + j) = Some (Text tj) ∧
    arts !! (first + k) = Some (Text tk) ∧
    xy tj = p ∧ xy tk = q ∧ text tj ≠ text tk.
Proof.
  intros H Hfit Hj Hk Hne arts first.
  destruct (diagram_artists_list colormaps cp name annotate_folds true
              annotate_faces ax H Hfit) as (cs & _ & Harts).
  subst arts. rewrite Harts. clear Harts.
  pose proof (length_fold_labels_fit _ _ Hfit) as Hlen.
  assert (∀ i (r : vec2), reference_points cp !! i = Some r →
            (artists ax ++ [crease_lines cp cs; crease_markers cp]
               ++ (if annotate_folds then fold_labels cp else [])
               ++ vertex_labels cp
               ++ (if annotate_faces then face_labels cp else []))
              !! (first + i) = Some (vertex_label i r)) as Hat.
  { intros i r Hr. subst first.
    rewrite lookup_app_r by lia.
    rewrite lookup_app_r by (cbn; lia).
    rewrite lookup_app_r by (cbn; lia).
    rewrite Hlen. cbn [length].
    replace (_ - _ - _ - _) with i by lia.
    apply lookup_app_l_Some. by apply lookup_vertex_labels. }
  eexists _, _. split; [by apply Hat|]. split; [by apply Hat|].
  split; [done|]. split; [done|]. cbn [text].
  intros Heq. apply Hne. apply (inj pretty).
  by apply (inj (String.append "v")).
Qed.

Lemma vertex_labels_differ_witness :
  let arts := artists (plot_crease_pattern example_cmaps (accordion 3) None
                         false true false blank_axes2d).2 in
  ∃ tj tk,
    arts !! (0 + 2 + 0 + 0) = Some (Text tj) ∧
    arts !! (0 + 2 + 0 + 1) = Some (Text tk) ∧
    text tj ≠ text tk.
Proof.
  intros arts.
  destruct (vertex_labels_differ example_cmaps (accordion 3) None false false
              blank_axes2d 0 1 (0%Qc, 0%Qc) (0%Qc, 1%Qc))
    as (tj & tk & Hj & Hk & _ & _ & Hne).
  - unfold colors_available. simpl. lia.
  - by left.
  - apply (f_equal Some). qc_eq.
  - apply (f_equal Some). qc_eq.
  - lia.
  - by exists tj, tk.
Defined.
